(** * mesheryctl [model import]: the request pipeline and the report engine

    A shallow embedding of
    [mesheryctl/internal/cli/root/model/import.go].  Go values of type
    [interface{}] that come out of the JSON decoder are an inductive type,
    console output is a trace of events, and a run-time panic (a failed
    single-value type assertion, an index out of range) ends the run with
    the trace emitted so far. *)

From Stdlib Require Import List String Ascii ZArith Lia Bool Permutation.
From Stdlib Require Import DecimalString.
Import ListNotations.
Open Scope string_scope.

(** ** The Go run-time model *)

Module Go.

(** A decoded JSON value held in an [interface{}].  [VMap] is
    [map[string]interface{}] (first binding of a key wins, a missing key
    reads as [VNil]); [VArr] is [[]interface{}]; the payload of [VNum] is
    never inspected by this program. *)
#[warnings="-register-all"]
Inductive value : Type :=
| VNil : value
| VBool : bool -> value
| VNum : Z -> value
| VStr : string -> value
| VArr : list value -> value
| VMap : list (string * value) -> value.

Definition gomap := list (string * value).

(** The target of a type assertion. *)
Inductive gotype : Type := TString | TSlice | TMap.

(** Why a run stopped. *)
Inductive panic_reason : Type :=
| TypeAssertion : value -> gotype -> panic_reason
| IndexOutOfRange : nat -> nat -> panic_reason.

(** Error values.  [ErrTypeCast] is what meshkit's [utils.Cast] returns;
    [ErrHost] stands for an error made by the operating system, the
    configuration or the network; the others wrap a cause the way the
    source does. *)
Inductive goerror : Type :=
| ErrTypeCast : value -> gotype -> goerror
| ErrHost : string -> goerror
| ErrCouldNotAccess : goerror -> goerror
| ErrCouldNotRead : goerror -> goerror
| ErrFileWalkDir : goerror -> string -> goerror
| ErrOpenFile : string -> goerror
| ErrReadFile : goerror -> string -> goerror
| ErrRelPath : goerror -> string -> goerror
| ErrCopyFile : goerror -> goerror
| ErrCloseFile : goerror -> goerror
| ErrDoRequest : string -> string -> goerror
| ErrDataRead : goerror -> string -> goerror
| ErrUnmarshal : goerror -> string -> goerror.

Inductive outcome (A : Type) : Type :=
| Done : A -> outcome A
| Panicked : panic_reason -> outcome A.
Arguments Done {A} _.
Arguments Panicked {A} _.

(** A computation over events of type [Ev]: the events it emitted, and how
    it ended. *)
Definition T (Ev A : Type) : Type := (list Ev * outcome A)%type.

Definition ret {Ev A} (a : A) : T Ev A := ([], Done a).

Definition bind {Ev A B} (m : T Ev A) (f : A -> T Ev B) : T Ev B :=
  match m with
  | (o1, Done a) => let (o2, r) := f a in ((o1 ++ o2)%list, r)
  | (o1, Panicked p) => (o1, Panicked p)
  end.

Definition emit {Ev} (e : Ev) : T Ev unit := ([e], Done tt).
Definition panic {Ev A} (p : panic_reason) : T Ev A := ([], Panicked p).

Definition events {Ev A} (m : T Ev A) : list Ev := fst m.
Definition result {Ev A} (m : T Ev A) : outcome A := snd m.

(** Run a computation inside one with a larger event type. *)
Definition lift {Ev Ev' A} (inj : Ev -> Ev') (m : T Ev A) : T Ev' A :=
  (map inj (fst m), snd m).

(** [for _, x := range l { body x }] *)
Fixpoint forM_ {Ev A} (l : list A) (body : A -> T Ev unit) : T Ev unit :=
  match l with
  | [] => ret tt
  | x :: l' => bind (body x) (fun _ => forM_ l' body)
  end.

(** A loop that threads the variables it assigns to. *)
Fixpoint foldM {Ev A St} (l : list A) (s : St) (body : St -> A -> T Ev St)
    : T Ev St :=
  match l with
  | [] => ret s
  | x :: l' => bind (body s x) (fun s' => foldM l' s' body)
  end.

(** The same with the index, [for i, x := range l]. *)
Fixpoint foldM_range {Ev A St} (i : nat) (l : list A) (s : St)
    (body : nat -> A -> St -> T Ev St) : T Ev St :=
  match l with
  | [] => ret s
  | x :: l' => bind (body i x s) (fun s' => foldM_range (S i) l' s' body)
  end.

(** [m[k]] on a [map[string]interface{}]; a nil map reads like an empty one. *)
Fixpoint lookup (m : gomap) (k : string) : value :=
  match m with
  | [] => VNil
  | (k', v) :: m' => if String.eqb k' k then v else lookup m' k
  end.

(** The two-value forms [v, ok := x.(T)]: no panic, [None] stands for
    [ok == false] (the caller then sees T's zero value). *)
Definition as_string (v : value) : option string :=
  match v with VStr s => Some s | _ => None end.
Definition as_slice (v : value) : option (list value) :=
  match v with VArr l => Some l | _ => None end.
Definition as_map (v : value) : option gomap :=
  match v with VMap m => Some m | _ => None end.

(** [s, _ := x.(string)] and [m, _ := x.(map[string]interface{})] *)
Definition string_or_zero (v : value) : string :=
  match as_string v with Some s => s | None => "" end.
Definition map_or_zero (v : value) : gomap :=
  match as_map v with Some m => m | None => [] end.

(** The single-value forms [x.(T)]: a mismatch panics. *)
Definition assert_string {Ev} (v : value) : T Ev string :=
  match as_string v with Some s => ret s | None => panic (TypeAssertion v TString) end.
Definition assert_slice {Ev} (v : value) : T Ev (list value) :=
  match as_slice v with Some l => ret l | None => panic (TypeAssertion v TSlice) end.
Definition assert_map {Ev} (v : value) : T Ev gomap :=
  match as_map v with Some m => ret m | None => panic (TypeAssertion v TMap) end.

(** [l[i]] *)
Definition index {Ev A} (l : list A) (i : nat) : T Ev A :=
  match nth_error l i with
  | Some x => ret x
  | None => panic (IndexOutOfRange i (List.length l))
  end.

(** meshkit's [utils.Cast[K]]: the asserted value, or an [ErrTypeCast]. *)
Definition Cast_map (v : value) : gomap + goerror :=
  match as_map v with Some m => inl m | None => inr (ErrTypeCast v TMap) end.
Definition Cast_slice (v : value) : list value + goerror :=
  match as_slice v with Some l => inl l | None => inr (ErrTypeCast v TSlice) end.

(** [%d] of a non-negative [int]. *)
Definition itoa (n : nat) : string := NilEmpty.string_of_uint (Nat.to_uint n).

Definition newline : string := String (ascii_of_nat 10) EmptyString.

End Go.

Import Go.

(** ** What this program sends out *)

(** The request body of [registerModel]. *)
Record ImportBody_t : Type := {
  ModelFile : list Byte.byte;
  URL : string;
  FileName : string
}.

Record ImportRequestBody : Type := {
  ImportBody : ImportBody_t;
  UploadType : string
}.

(** What the presentation sink receives. *)
Inductive event : Type :=
| LogInfo : string -> event
| LogError : goerror -> event
| Println : string -> event
| PrintToTable : list string -> list (list string) -> event.

(** What the command does to the outside: console output, and the one
    POST of [registerModel]. *)
Inductive cmd_event : Type :=
| Console : event -> cmd_event
| HttpPost : string -> ImportRequestBody -> cmd_event.

(** Computations of the report engine. *)
Definition M (A : Type) : Type := T event A.

Notation "x <- c1 ;; c2" := (bind c1 (fun x => c2))
  (at level 61, c1 at next level, right associativity).
Notation "c1 ;;; c2" := (bind c1 (fun _ => c2))
  (at level 61, right associativity).

(** ** [path/filepath] on a Unix host *)

Module Filepath.

Definition slash : ascii := "/"%char.
Definition dot : ascii := "."%char.

(** The loop of [filepath.Ext]: [todo] is [path[0..i]] reversed, [acc] is
    [path[i+1:]].  It stops at the first separator or dot met from the
    right. *)
Fixpoint ext_scan (todo acc : list ascii) : list ascii :=
  match todo with
  | [] => []
  | c :: rest =>
      if Ascii.eqb c slash then []
      else if Ascii.eqb c dot then c :: acc
      else ext_scan rest (c :: acc)
  end.

Definition Ext (path : string) : string :=
  string_of_list_ascii (ext_scan (rev (list_ascii_of_string path)) []).

(** [filepath.Base]: strip trailing slashes, keep what follows the last
    slash; an empty path is ".", a path of slashes only is "/". *)
Fixpoint strip_slashes (rpath : list ascii) : list ascii :=
  match rpath with
  | c :: rest => if Ascii.eqb c slash then strip_slashes rest else rpath
  | [] => []
  end.

Fixpoint last_element (rpath acc : list ascii) : list ascii :=
  match rpath with
  | [] => acc
  | c :: rest => if Ascii.eqb c slash then acc else last_element rest (c :: acc)
  end.

Definition Base (path : string) : string :=
  match path with
  | EmptyString => "."
  | _ =>
      match last_element (strip_slashes (rev (list_ascii_of_string path))) [] with
      | [] => "/"
      | l => string_of_list_ascii l
      end
  end.

End Filepath.

(** ** The registry's reply *)

(** Modelled from the spec: the declaration of [models.RegistryAPIResponse]
    (package [server/models]) is not part of this file's source; the fields
    and their types are the ones [import.go] reads.  Counts are Go [int]s
    and are only ever compared with zero. *)
Record models_EntityCount : Type := {
  CompCount : Z;
  RelCount : Z;
  TotalErrCount : Z
}.

Record models_EntityTypeSummary : Type := {
  SuccessfulComponents : list gomap;
  SuccessfulRelationships : list gomap;
  UnsuccessfulEntityNameWithError : list value
}.

Record models_RegistryAPIResponse : Type := {
  ErrMsg : string;
  ModelName : list string;
  EntityCount : models_EntityCount;
  EntityTypeSummary : models_EntityTypeSummary
}.

(** ** Collaborators outside this file

    [utils.BoldString], [strings.TrimSpace], what [fmt] prints for the
    verbs [%s], [%v] and [%T] on a value that is not a string, and the
    order in which [range] visits a map, which Go leaves unspecified: any
    permutation of the entries. *)
Definition relmap := list (string * list (list string)).

Class Externals : Type := {
  BoldString : string -> string;
  TrimSpace : string -> string;
  Sprint_s : value -> string;
  Sprint_v : value -> string;
  Sprint_T : value -> string;
  rangeOrder : relmap -> relmap;
  rangeOrder_perm : forall m : relmap, Permutation (rangeOrder m) m
}.

(** [strings.Split(s, sep)] for a one-byte separator. *)
Fixpoint Split (sep : ascii) (s : string) : list string :=
  match s with
  | EmptyString => [""]
  | String c r =>
      if Ascii.eqb c sep then "" :: Split sep r
      else match Split sep r with
           | h :: t => String c h :: t
           | [] => [String c ""]
           end
  end.

(** [m[key] = append(m[key], row)] on a map kept in first-insertion order. *)
Fixpoint appendRow (m : relmap) (key : string) (row : list string) : relmap :=
  match m with
  | [] => [(key, [row])]
  | (k, rows) :: m' =>
      if String.eqb k key then (k, (rows ++ [row])%list) :: m'
      else (k, rows) :: appendRow m' key row
  end.

(** [seen[k]] on a [map[string]bool] that only ever stores [true]. *)
Definition seen_has (seen : list string) (k : string) : bool :=
  existsb (String.eqb k) seen.

(** ** The report engine *)

Section Report.

Context {E : Externals}.

(** [fmt.Sprintf("%s", v)] for [v] of type [interface{}]. *)
Definition Sprintf_s (v : value) : string :=
  match v with
  | VStr s => s
  | _ => Sprint_s v
  end.

Definition displayEmtpyModel (response : models_RegistryAPIResponse) : bool :=
  if negb (Nat.eqb (List.length (ModelName response)) 0)
     && Z.eqb (CompCount (EntityCount response)) 0
     && Z.eqb (RelCount (EntityCount response)) 0
  then
    if Z.eqb (TotalErrCount (EntityCount response)) 0 then false else true
  else true.

Definition hasExtension (name : string) : bool :=
  let extension := Filepath.Ext name in
  String.eqb extension ".json" || String.eqb extension ".yaml"
  || String.eqb extension ".yml" || String.eqb extension ".tar.gz"
  || String.eqb extension ".tar" || String.eqb extension ".zip"
  || String.eqb extension ".tgz".

Definition displaySummary (response : models_RegistryAPIResponse) : M unit :=
  let boldSummary := BoldString "SUMMARY" in
  emit (LogInfo (boldSummary ++ ": " ++ ErrMsg response)).

(** One iteration of the loop of [displaySuccessfulComponents].  Only the
    outermost assertion of a chain is in the two-value form: the inner
    [modelData["category"].(map[string]interface{})] and
    [modelData["model"].(map[string]interface{})] are single-value
    assertions. *)
Definition componentRow (modelName : string) (rows : list (list string))
    (comp : gomap) : M (list (list string)) :=
  let displayName := string_or_zero (lookup comp "DisplayName") in
  let modelData := map_or_zero (lookup comp "Model") in
  let modelDisplayName := string_or_zero (lookup modelData "name") in
  categoryMap <- assert_map (lookup modelData "category") ;;
  let category := string_or_zero (lookup categoryMap "name") in
  modelMap <- assert_map (lookup modelData "model") ;;
  let modelVersion := string_or_zero (lookup modelMap "version") in
  if String.eqb modelDisplayName modelName
  then ret (rows ++ [[displayName; category; modelVersion]])%list
  else ret rows.

Definition displaySuccessfulComponents
    (response : models_RegistryAPIResponse) (modelName : string) : M unit :=
  let comps := SuccessfulComponents (EntityTypeSummary response) in
  if Nat.ltb 0 (List.length comps) then
    let header := ["Component"; "Category"; "Version"] in
    rows <- foldM comps [] (componentRow modelName) ;;
    if Nat.ltb 0 (List.length rows)
    then emit (Println "") ;;; emit (PrintToTable header rows)
    else ret tt
  else ret tt.

(** The two maps [displaySuccessfulRelationships] fills. *)
Record relstate : Type := {
  seen : list string;
  relationshipMap : relmap
}.

(** The body of the loop over one record's selectors. *)
Definition selectorRow (kind subtype : string) (st : relstate)
    (selector : value) : M relstate :=
  selectorMap <- assert_map selector ;;
  allow <- assert_map (lookup selectorMap "allow") ;;
  from <- assert_slice (lookup allow "from") ;;
  to <- assert_slice (lookup allow "to") ;;
  from0 <- index from 0 ;;
  fromMap <- assert_map from0 ;;
  let fromComponent := Sprintf_s (lookup fromMap "kind") in
  to0 <- index to 0 ;;
  toMap <- assert_map to0 ;;
  let toComponent := Sprintf_s (lookup toMap "kind") in
  let key := kind ++ "-" ++ subtype in
  if seen_has (seen st) ((key ++ fromComponent) ++ toComponent)
  then ret st
  else ret {| seen := ((key ++ fromComponent) ++ toComponent) :: seen st;
              relationshipMap :=
                appendRow (relationshipMap st) key [fromComponent; toComponent] |}.

(** The body of the loop over the records. *)
Definition relationshipRows (model : string) (st : relstate)
    (rel : gomap) : M relstate :=
  kind <- assert_string (lookup rel "Kind") ;;
  subtype <- assert_string (lookup rel "Subtype") ;;
  modelMap <- assert_map (lookup rel "Model") ;;
  modelName <- assert_string (lookup modelMap "name") ;;
  if negb (String.eqb modelName model) then ret st
  else
    selectors <- assert_slice (lookup rel "Selectors") ;;
    foldM selectors st (selectorRow kind subtype).

(** The body of the loop that prints one table per key. *)
Definition relationshipTable (entry : string * list (list string)) : M unit :=
  let (key, rows) := entry in
  let header := ["From"; "To"] in
  if Nat.ltb 0 (List.length rows) then
    emit (Println "") ;;;
    let boldRelationships :=
      if Nat.ltb 1 (List.length rows)
      then BoldString "RELATIONSHIPS:"
      else BoldString "RELATIONSHIP:" in
    let parts := Split "-"%char key in
    p0 <- index parts 0 ;;
    p1 <- index parts 1 ;;
    emit (LogInfo ("  " ++ boldRelationships ++ " Kind of " ++ p0
                   ++ " and sub type " ++ p1)) ;;;
    emit (PrintToTable header rows)
  else ret tt.

Definition displaySuccessfulRelationships
    (response : models_RegistryAPIResponse) (model : string) : M unit :=
  let rels := SuccessfulRelationships (EntityTypeSummary response) in
  if Nat.ltb 0 (List.length rels) then
    st <- foldM rels {| seen := []; relationshipMap := [] |}
            (relationshipRows model) ;;
    forM_ (rangeOrder (relationshipMap st)) relationshipTable
  else ret tt.

Definition buildLongDescription (longDescriptionInterface : value) : M string :=
  match as_slice longDescriptionInterface with
  | None =>
      emit (LogInfo ("Type assertion to []interface{} failed for LongDescription: "
                     ++ Sprint_v longDescriptionInterface ++ " (type "
                     ++ Sprint_T longDescriptionInterface ++ ")")) ;;;
      ret ""
  | Some longDescriptionSlice =>
      longDescription <-
        foldM longDescriptionSlice ""
          (fun longDescription item =>
             match as_string item with
             | None =>
                 emit (LogInfo ("Item in LongDescription is not a string: "
                                ++ Sprint_v item ++ " (type "
                                ++ Sprint_T item ++ ")")) ;;;
                 ret longDescription
             | Some str => ret (longDescription ++ (str ++ " "))
             end) ;;
      ret (TrimSpace longDescription)
  end.

(** The two counters of [buildEntityTypeLine]; both are bounded by
    [len(names)], so the Go [int]s never wrap. *)
Record counters : Type := {
  compCount : nat;
  relCount : nat
}.

(** The entity type the walk sees at index [i]. *)
Definition entityTypeAt (entityTypes : list value) (i : nat) : M string :=
  if Nat.ltb i (List.length entityTypes)
  then e <- index entityTypes i ;; assert_string e
  else ret "".

(** One iteration of the walk; [ret st] without further effect is
    [continue]. *)
Definition entityStep (entityTypes : list value)
    (longDescription modelName : string)
    (i : nat) (name : value) (st : counters) : M counters :=
  entityType <- entityTypeAt entityTypes i ;;
  skip <-
    (if negb (String.eqb modelName "") then
       n <- assert_string name ;;
       ret (negb (String.eqb modelName n))
     else if String.eqb modelName "" then
       ret (negb (String.eqb entityType "Unknown"))
     else ret false) ;;
  if (skip : bool) then ret st
  else if String.eqb entityType "Unknown" then
    n <- assert_string name ;;
    emit (LogInfo (newline ++ BoldString "ERROR"
                   ++ ": Import process for file " ++ n
                   ++ " encountered error: " ++ newline ++ "    "
                   ++ longDescription)) ;;;
    ret st
  else if String.eqb entityType "component" then
    ret {| compCount := S (compCount st); relCount := relCount st |}
  else if String.eqb entityType "relationship" then
    ret {| compCount := compCount st; relCount := S (relCount st) |}
  else ret st.

(** What follows the walk. *)
Definition entityTypeLineOf (st : counters) : string :=
  let EntityTypeLine := "" in
  let EntityTypeLine :=
    if Nat.ltb 0 (compCount st) then
      let word := if Nat.ltb 1 (compCount st) then "entities" else "entity" in
      " " ++ itoa (compCount st) ++ " " ++ word ++ " of type component"
    else EntityTypeLine in
  let EntityTypeLine :=
    if Nat.ltb 0 (compCount st) && Nat.ltb 0 (relCount st)
    then EntityTypeLine ++ " and"
    else EntityTypeLine in
  let EntityTypeLine :=
    if Nat.ltb 0 (relCount st) then
      let word := if Nat.ltb 1 (relCount st) then "entities" else "entity" in
      let msg := " " ++ itoa (relCount st) ++ " " ++ word ++ " of type relationship" in
      EntityTypeLine ++ msg
    else EntityTypeLine in
  EntityTypeLine.

Definition buildEntityTypeLine (names entityTypes : list value)
    (longDescription modelName : string) : M string :=
  st <- foldM_range 0 names {| compCount := 0; relCount := 0 |}
          (entityStep entityTypes longDescription modelName) ;;
  ret (entityTypeLineOf st).

(** The body of the loop of [displayUnsuccessfulEntities]; each [emit
    (LogError err)] that ends a branch is [utils.Log.Error(err); continue]. *)
Definition unsuccessfulEntity (modelName : string) (entity : value) : M unit :=
  match Cast_map entity with
  | inr err => emit (LogError err)
  | inl entityMap =>
      match Cast_slice (lookup entityMap "name") with
      | inr err => emit (LogError err)
      | inl names =>
          match Cast_slice (lookup entityMap "entityType") with
          | inr err => emit (LogError err)
          | inl entityTypes =>
              match Cast_map (lookup entityMap "error") with
              | inr err => emit (LogError err)
              | inl errorDetails =>
                  longDescription <-
                    buildLongDescription (lookup errorDetails "LongDescription") ;;
                  EntityTypeLine <-
                    buildEntityTypeLine names entityTypes longDescription modelName ;;
                  if negb (String.eqb EntityTypeLine "") then
                    emit (Println "") ;;;
                    emit (LogInfo ("  " ++ BoldString "ERROR"
                                   ++ ": Import did not occur for" ++ EntityTypeLine
                                   ++ " error: " ++ newline ++ "  "
                                   ++ longDescription))
                  else ret tt
              end
          end
      end
  end.

Definition displayUnsuccessfulEntities
    (response : models_RegistryAPIResponse) (modelName : string) : M unit :=
  let entities := UnsuccessfulEntityNameWithError (EntityTypeSummary response) in
  if Nat.ltb 0 (List.length entities)
  then forM_ entities (unsuccessfulEntity modelName)
  else ret tt.

(** The two slices [displayEntitisIfModel] fills in its first loop. *)
Record groups : Type := {
  modelsWithoutExtension : list string;
  modelsWithExtension : list string
}.

Definition classifyStep (g : groups) (model : string) : groups :=
  if negb (String.eqb model "") then
    if hasExtension model then
      {| modelsWithoutExtension := modelsWithoutExtension g;
         modelsWithExtension := (modelsWithExtension g ++ [model])%list |}
    else
      {| modelsWithoutExtension := (modelsWithoutExtension g ++ [model])%list;
         modelsWithExtension := modelsWithExtension g |}
  else g.

Definition classify (names : list string) : groups :=
  fold_left classifyStep names
    {| modelsWithoutExtension := []; modelsWithExtension := [] |}.

(** The line that opens the block of a model named without an extension. *)
Definition modelHeader (model : string) : event :=
  let boldModel := BoldString "MODEL" in
  LogInfo (newline ++ boldModel ++ ": " ++ model).

Definition displayModelInfo (response : models_RegistryAPIResponse)
    (model : string) (hasExtension : bool) : M unit :=
  (if negb hasExtension then emit (modelHeader model) else ret tt) ;;;
  displaySuccessfulComponents response model ;;;
  displaySuccessfulRelationships response model ;;;
  displayUnsuccessfulEntities response model.

Definition displayEntitisIfModel (response : models_RegistryAPIResponse) : M unit :=
  let g := classify (ModelName response) in
  forM_ (modelsWithoutExtension g)
        (fun model => displayModelInfo response model false) ;;;
  forM_ (modelsWithExtension g)
        (fun model => displayModelInfo response model true).

Definition displayEntities (response : models_RegistryAPIResponse) : M unit :=
  let ok := displayEmtpyModel response in
  if negb ok then ret tt
  else
    displaySummary response ;;;
    displayEntitisIfModel response.

End Report.

(** ** The command *)

(** The host the command runs on: the file system, the archive and
    compression writers of meshkit and [compress/gzip], the configuration
    and the HTTP client.  [filepath_Walk root] is the sequence of calls the
    walk makes to its callback: path, whether it is a directory, and the
    error the walk met there. *)
Record http_request : Type := {
  Method : string
}.

(** [Request] is the request the response answers, as the client reports
    it. *)
Record http_response : Type := {
  StatusCode : nat;
  Request : http_request;
  Body : list Byte.byte + goerror
}.

Class Host : Type := {
  os_Stat : string -> bool + goerror;
  os_ReadFile : string -> list Byte.byte + goerror;
  filepath_Walk : string -> list (string * bool * option goerror);
  os_Open : string -> bool;
  io_ReadAll : string -> list Byte.byte + goerror;
  filepath_Dir : string -> string;
  filepath_Rel : string -> string -> string + goerror;
  tw_Compress : list Byte.byte -> string -> list Byte.byte -> list Byte.byte + goerror;
  gzip_Copy : list Byte.byte -> list Byte.byte + goerror;
  gzip_Close : list Byte.byte -> list Byte.byte + goerror;
  config_GetMesheryCtl : string + goerror;
  utils_NewRequest : string -> ImportRequestBody -> option goerror;
  utils_MakeRequest : string -> ImportRequestBody -> http_response + goerror;
  meshkitutils_Unmarshal : list Byte.byte -> models_RegistryAPIResponse + goerror
}.

Section Command.

Context {H : Host} {E : Externals}.

(** The callback [compressDirectory] hands to [filepath.Walk]; [tw] is the
    buffer of the tar writer. *)
Definition walkFn (dirpath : string) (tw : list Byte.byte)
    (entry : string * bool * option goerror) : list Byte.byte + goerror :=
  let '(path, isDir, err) := entry in
  match err with
  | Some err => inr (ErrFileWalkDir err path)
  | None =>
      if isDir then inl tw
      else if negb (os_Open path) then inr (ErrOpenFile path)
      else
        match io_ReadAll path with
        | inr err => inr (ErrReadFile err path)
        | inl fileData =>
            match filepath_Rel (filepath_Dir dirpath) path with
            | inr err => inr (ErrRelPath err path)
            | inl relPath => tw_Compress tw relPath fileData
            end
        end
  end.

(** The walk stops at the first error its callback returns. *)
Fixpoint walk (dirpath : string) (tw : list Byte.byte)
    (entries : list (string * bool * option goerror)) : list Byte.byte + goerror :=
  match entries with
  | [] => inl tw
  | entry :: rest =>
      match walkFn dirpath tw entry with
      | inr err => inr err
      | inl tw' => walk dirpath tw' rest
      end
  end.

Definition compressDirectory (dirpath : string) : list Byte.byte + goerror :=
  match walk dirpath [] (filepath_Walk dirpath) with
  | inr err => inr err
  | inl tw =>
      match gzip_Copy tw with
      | inr err => inr (ErrCopyFile err)
      | inl buf =>
          match gzip_Close buf with
          | inr err => inr (ErrCloseFile err)
          | inl buf' => inl buf'
          end
      end
  end.

(** [json.Marshal] of the request and the construction of the
    [http.Request] around it are part of the host's client; the POST is the
    event [HttpPost]. *)
Definition registerModel (data : list Byte.byte) (name dataType : string)
    : T cmd_event (option goerror) :=
  match config_GetMesheryCtl with
  | inr err => ret (Some err)
  | inl baseURL =>
      let url := baseURL ++ "/api/meshmodels/register" in
      let importRequest :=
        {| ImportBody := {| ModelFile := data; URL := ""; FileName := name |};
           UploadType := dataType |} in
      match utils_NewRequest url importRequest with
      | Some err => ret (Some err)
      | None =>
          emit (HttpPost url importRequest) ;;;
          match utils_MakeRequest url importRequest with
          | inr err => ret (Some err)
          | inl resp =>
              if negb (Nat.eqb (StatusCode resp) 200)
              then ret (Some (ErrDoRequest (Method (Request resp)) url))
              else
                match Body resp with
                | inr err => ret (Some (ErrDataRead err "response body"))
                | inl bodyBytes =>
                    match meshkitutils_Unmarshal bodyBytes with
                    | inr err => ret (Some (ErrUnmarshal err "response body"))
                    | inl response =>
                        lift Console (displayEntities response) ;;;
                        ret None
                    end
                end
          end
      end
  end.

(** Lines 60 to 81 of [RunE]: what is sent, and under which name. *)
Definition payloadOf (path : string)
    : (list Byte.byte * string) + goerror :=
  match os_Stat path with
  | inr err => inr (ErrCouldNotAccess err)
  | inl isDir =>
      if isDir then
        match compressDirectory path with
        | inr err => inr err
        | inl tarData => inl (tarData, Filepath.Base path ++ ".tar.gz")
        end
      else
        match os_ReadFile path with
        | inr err => inr (ErrCouldNotRead err)
        | inl fileData => inl (fileData, Filepath.Base path)
        end
  end.

(** [importModelCmd.RunE]; [location] is the value of the flag [--file]. *)
Definition RunE (location : string) (args : list string)
    : T cmd_event (option goerror) :=
  path <- (if negb (String.eqb location "") then ret location
           else index args 0) ;;
  match payloadOf path with
  | inr err => ret (Some err)
  | inl (tarData, fileName) =>
      err <- registerModel tarData fileName "file" ;;
      match err with
      | Some err => emit (Console (LogError err)) ;;; ret (Some err)
      | None => ret None
      end
  end.

End Command.

(** ** The words of the specification, for comparison *)

(** [strings.HasSuffix], on the reversed strings. *)
Fixpoint is_prefix (p l : list ascii) : bool :=
  match p, l with
  | [], _ => true
  | a :: p', b :: l' => Ascii.eqb a b && is_prefix p' l'
  | _ :: _, [] => false
  end.

Definition HasSuffix (s suffix : string) : bool :=
  is_prefix (rev (list_ascii_of_string suffix)) (rev (list_ascii_of_string s)).

(** A character that is neither a dot nor a path separator. *)
Definition plain (c : ascii) : Prop := c <> Filepath.dot /\ c <> Filepath.slash.

(** The extensions the specification lists. *)
Definition recognizedExtensions : list string :=
  [".json"; ".yaml"; ".yml"; ".tar.gz"; ".tar"; ".zip"; ".tgz"].

Definition hasRecognizedExtension (name : string) : bool :=
  existsb (HasSuffix name) recognizedExtensions.

Definition is_string (v : value) : bool :=
  match v with VStr _ => true | _ => false end.

(** The entity type of index [i], empty past the end of [entityTypes]. *)
Definition typeAt (entityTypes : list value) (i : nat) : string :=
  match nth_error entityTypes i with
  | Some v => string_or_zero v
  | None => ""
  end.

(** The indices the walk counts: by name under a model name, by the type
    "Unknown" under the empty model name. *)
Definition countedIndex (entityTypes : list value) (modelName : string)
    (entry : nat * value) : bool :=
  let (i, name) := entry in
  if String.eqb modelName "" then String.eqb (typeAt entityTypes i) "Unknown"
  else String.eqb modelName (string_or_zero name).

Definition enumerate_from {A} (i : nat) (l : list A) : list (nat * A) :=
  combine (seq i (List.length l)) l.


(** The summary phrase for [c] components and [r] relationships. *)
Definition entityWord (n : nat) : string :=
  if Nat.eqb n 1 then "entity" else "entities".

Definition typePhrase (n : nat) (ty : string) : string :=
  if Nat.eqb n 0 then ""
  else " " ++ itoa n ++ " " ++ entityWord n ++ " of type " ++ ty.

Definition summaryPhrase (c r : nat) : string :=
  (typePhrase c "component"
   ++ (if negb (Nat.eqb c 0) && negb (Nat.eqb r 0) then " and" else ""))
  ++ typePhrase r "relationship".

Definition bump (b : bool) : nat := if b then 1 else 0.

(** How many of the entries from index [i] on are counted under the entity
    type [ty]. *)
Definition countFrom (i : nat) (names entityTypes : list value)
    (modelName ty : string) : nat :=
  List.length
    (filter (fun entry : nat * value =>
               countedIndex entityTypes modelName entry
               && String.eqb (typeAt entityTypes (fst entry)) ty)
            (enumerate_from i names)).

(** A computation that does not stop on an index out of range. *)
Definition in_bounds {A} (m : M A) : Prop :=
  forall i n, result m <> Panicked (IndexOutOfRange i n).

(** A computation that prints nothing. *)
Definition silent {A} (m : M A) : Prop := events m = [].

(** The invariant of the two maps of [displaySuccessfulRelationships]: no
    row twice under a key, and every row recorded in [seen]. *)
Definition deduplicated (st : relstate) : Prop :=
  forall key rows,
    In (key, rows) (relationshipMap st) ->
    NoDup rows
    /\ forall from to,
         In [from; to] rows ->
         seen_has (seen st) ((key ++ from) ++ to) = true.

(** A model name the first loop of [displayEntitisIfModel] keeps. *)
Definition named (m : string) : bool := negb (String.eqb m "").

(** The three detail blocks of one model name. *)
Definition modelDetails {E : Externals} (response : models_RegistryAPIResponse)
    (model : string) : M unit :=
  displaySuccessfulComponents response model ;;;
  displaySuccessfulRelationships response model ;;;
  displayUnsuccessfulEntities response model.

(** The value of a record's "error" field, as the engine reads it. *)
Definition errorField (entity : value) : value :=
  lookup (map_or_zero entity) "error".

(** The path [RunE] works on: the flag when it is set, the first argument
    otherwise. *)
Definition inputPath (location : string) (args : list string) : option string :=
  if negb (String.eqb location "") then Some location else nth_error args 0.

(** The request [registerModel] builds for a file upload. *)
Definition fileUpload (data : list Byte.byte) (name : string) : ImportRequestBody :=
  {| ImportBody := {| ModelFile := data; URL := ""; FileName := name |};
     UploadType := "file" |}.

(** ** A terminal and sample replies *)

(** A terminal without colours; [range] visits a map in insertion order. *)
Fixpoint dropSpaces (l : list ascii) : list ascii :=
  match l with
  | c :: l' => if Ascii.eqb c " "%char then dropSpaces l' else l
  | [] => []
  end.

Definition trimSpaces (s : string) : string :=
  string_of_list_ascii
    (rev (dropSpaces (rev (dropSpaces (list_ascii_of_string s))))).

#[export] Instance plainTerminal : Externals := {|
  BoldString := fun s => s;
  TrimSpace := trimSpaces;
  Sprint_s := fun _ => "%!s(?)";
  Sprint_v := fun _ => "?";
  Sprint_T := fun _ => "?";
  rangeOrder := fun m => m;
  rangeOrder_perm := fun m => Permutation_refl m
|}.

Definition mkCounts (c r e : Z) : models_EntityCount :=
  {| CompCount := c; RelCount := r; TotalErrCount := e |}.

Definition mkReply (msg : string) (names : list string)
    (counts : models_EntityCount) (comps rels : list gomap)
    (failed : list value) : models_RegistryAPIResponse :=
  {| ErrMsg := msg;
     ModelName := names;
     EntityCount := counts;
     EntityTypeSummary :=
       {| SuccessfulComponents := comps;
          SuccessfulRelationships := rels;
          UnsuccessfulEntityNameWithError := failed |} |}.

Definition withModelNames (names : list string)
    (r : models_RegistryAPIResponse) : models_RegistryAPIResponse :=
  {| ErrMsg := ErrMsg r;
     ModelName := names;
     EntityCount := EntityCount r;
     EntityTypeSummary := EntityTypeSummary r |}.

Definition withFailed (failed : list value)
    (r : models_RegistryAPIResponse) : models_RegistryAPIResponse :=
  {| ErrMsg := ErrMsg r;
     ModelName := ModelName r;
     EntityCount := EntityCount r;
     EntityTypeSummary :=
       {| SuccessfulComponents := SuccessfulComponents (EntityTypeSummary r);
          SuccessfulRelationships := SuccessfulRelationships (EntityTypeSummary r);
          UnsuccessfulEntityNameWithError := failed |} |}.

(** A well-formed relationship record with one selector. *)
Definition mkRelationship (kind subtype model from to : string)
    (extra : gomap) : gomap :=
  ([("Kind", VStr kind);
    ("Subtype", VStr subtype);
    ("Model", VMap [("name", VStr model)]);
    ("Selectors",
     VArr [VMap [("allow",
                  VMap [("from", VArr [VMap [("kind", VStr from)]]);
                        ("to", VArr [VMap [("kind", VStr to)]])])]])]
   ++ extra)%list.

(** A model named in the reply, and nothing imported or rejected. *)
Definition idleReply : models_RegistryAPIResponse :=
  mkReply "nothing to import" ["m"] (mkCounts 0 0 0) [] [] [].

(** A reply whose only model name is empty. *)
Definition namelessReply : models_RegistryAPIResponse :=
  mkReply "imported" [""] (mkCounts 1 0 0) [] [] [].

(** A component record without a "Model" field. *)
Definition bareComponentReply : models_RegistryAPIResponse :=
  mkReply "imported" ["m"] (mkCounts 1 0 0)
    [[("DisplayName", VStr "Pod")]] [] [].

(** A relationship record whose "Kind" is a number. *)
Definition numericKindReply : models_RegistryAPIResponse :=
  mkReply "imported" ["m"] (mkCounts 0 1 0) []
    [[("Kind", VNum 7); ("Subtype", VStr "binding");
      ("Model", VMap [("name", VStr "m")]); ("Selectors", VArr [])]] [].

(** Three relationships of one kind and subtype: Config to MapStore, then
    ConfigMap to Store twice, the second time under another version. *)
Definition collidingReply : models_RegistryAPIResponse :=
  mkReply "imported" ["m"] (mkCounts 0 3 0) []
    [mkRelationship "edge" "binding" "m" "Config" "MapStore" [];
     mkRelationship "edge" "binding" "m" "ConfigMap" "Store" [];
     mkRelationship "edge" "binding" "m" "ConfigMap" "Store"
       [("Version", VStr "v2")]] [].

(** The record of the specification's counting example. *)
Definition threeEntities : value :=
  VMap [("name", VArr [VStr "m1"; VStr "m1"; VStr "m1"]);
        ("entityType", VArr [VStr "component"; VStr "relationship"; VStr "Unknown"]);
        ("error", VMap [("LongDescription", VArr [VStr "bad"; VStr "file"])])].

(** A record without an "error" field. *)
Definition noErrorField : value :=
  VMap [("name", VArr [VStr "m1"]); ("entityType", VArr [VStr "component"])].

(** A host with one file and one directory, and a registry that answers
    [idleReply] to everything. *)
Definition fileBytes : list Byte.byte := [Byte.x6d; Byte.x3a; Byte.x0a].

#[export] Instance sampleHost : Host := {|
  os_Stat := fun path =>
    if String.eqb path "/tmp/models/model.yaml" then inl false
    else if String.eqb path "/tmp/models" then inl true
    else inr (ErrHost "no such file or directory");
  os_ReadFile := fun path =>
    if String.eqb path "/tmp/models/model.yaml" then inl fileBytes
    else inr (ErrHost "no such file or directory");
  filepath_Walk := fun root =>
    [(root, true, None); ("/tmp/models/model.yaml", false, None)];
  os_Open := fun _ => true;
  io_ReadAll := fun _ => inl fileBytes;
  filepath_Dir := fun _ => "/tmp";
  filepath_Rel := fun _ _ => inl "models/model.yaml";
  tw_Compress := fun tw _ data => inl (tw ++ data)%list;
  gzip_Copy := fun data => inl data;
  gzip_Close := fun data => inl data;
  config_GetMesheryCtl := inl "http://localhost:9081";
  utils_NewRequest := fun _ _ => None;
  utils_MakeRequest := fun _ _ => inl {| StatusCode := 200; Request := {| Method := "POST" |}; Body := inl [] |};
  meshkitutils_Unmarshal := fun _ => inl idleReply
|}.

(** ** The rest of the command *)

(** [importModelCmd.Args]: the error message, or [None] for [nil]. *)
Definition usage : string :=
  "Usage: mesheryctl model import [ file | filePath ]" ++ newline
  ++ "Run 'mesheryctl model import --help' to see detailed help message".

Definition Args (location : string) (args : list string) : option string :=
  let errMsg := usage in
  if String.eqb location "" && Nat.eqb (List.length args) 0 then
    Some ("[ file | filepath ] isn't specified" ++ newline ++ newline ++ errMsg)
  else if Nat.ltb 1 (List.length args) then
    Some ("too many arguments" ++ newline ++ newline ++ errMsg)
  else None.

(** The [strings.Builder] and the [seen] map of [ModelNames]. *)
Record namesState : Type := {
  builder : string;
  seenNames : list string
}.

Definition modelNamesStep (st : namesState) (model : string) : namesState :=
  if negb (String.eqb model "") then
    if negb (seen_has (seenNames st) model) then
      let builder1 :=
        if Nat.ltb 0 (String.length (builder st))
        then builder st ++ ", "
        else builder st in
      {| builder := builder1 ++ model; seenNames := model :: seenNames st |}
    else st
  else st.

Definition ModelNames (response : models_RegistryAPIResponse) : string :=
  builder (fold_left modelNamesStep (ModelName response)
             {| builder := ""; seenNames := [] |}).

(** The names of a list that are not in [seen], each at its first
    occurrence. *)
Fixpoint firstSeen (seen : list string) (l : list string) : list string :=
  match l with
  | [] => []
  | x :: l' =>
      if seen_has seen x then firstSeen seen l'
      else x :: firstSeen (x :: seen) l'
  end.

Definition isPost (e : cmd_event) : bool :=
  match e with HttpPost _ _ => true | Console _ => false end.

(** An entry of the walk that [walkFn] looks into: a file, or an entry the
    walk reports an error for. *)
Definition walkedInto (entry : string * bool * option goerror) : bool :=
  let '(_, isDir, err) := entry in
  negb isDir || match err with Some _ => true | None => false end.

(** A host whose registry answers 201, and whose directory holds an entry
    the walk cannot read. *)
Definition brokenHost : Host := {|
  os_Stat := fun path =>
    if String.eqb path "/tmp/models/model.yaml" then inl false
    else if String.eqb path "/tmp/models" then inl true
    else inr (ErrHost "no such file or directory");
  os_ReadFile := fun path =>
    if String.eqb path "/tmp/models/model.yaml" then inl fileBytes
    else inr (ErrHost "no such file or directory");
  filepath_Walk := fun root =>
    [(root, true, None);
     ("/tmp/models/model.yaml", false, None);
     ("/tmp/models/locked", false, Some (ErrHost "permission denied"));
     ("/tmp/models/other.yaml", false, None)];
  os_Open := fun _ => true;
  io_ReadAll := fun _ => inl fileBytes;
  filepath_Dir := fun _ => "/tmp";
  filepath_Rel := fun _ _ => inl "models/model.yaml";
  tw_Compress := fun tw _ data => inl (tw ++ data)%list;
  gzip_Copy := fun data => inl data;
  gzip_Close := fun data => inl data;
  config_GetMesheryCtl := inl "http://localhost:9081";
  utils_NewRequest := fun _ _ => None;
  utils_MakeRequest := fun _ _ => inl {| StatusCode := 201; Request := {| Method := "POST" |}; Body := inl [] |};
  meshkitutils_Unmarshal := fun _ => inl idleReply
|}.

(** ** Shapes of records, for the properties of the report *)

Definition is_map (v : value) : bool :=
  match v with VMap _ => true | _ => false end.

(** A component record [displaySuccessfulComponents] gets through: its
    model data has a "category" object and a "model" object. *)
Definition componentWellFormed (comp : gomap) : bool :=
  let modelData := map_or_zero (lookup comp "Model") in
  is_map (lookup modelData "category") && is_map (lookup modelData "model").

(** Whether a component record belongs to the model, and its row. *)
Definition componentOf (modelName : string) (comp : gomap) : bool :=
  String.eqb (string_or_zero (lookup (map_or_zero (lookup comp "Model")) "name"))
             modelName.

Definition componentRowOf (comp : gomap) : list string :=
  let modelData := map_or_zero (lookup comp "Model") in
  [string_or_zero (lookup comp "DisplayName");
   string_or_zero (lookup (map_or_zero (lookup modelData "category")) "name");
   string_or_zero (lookup (map_or_zero (lookup modelData "model")) "version")].

(** Every key of the relationship map is a kind, a dash and a subtype, and
    has at least one row. *)
Definition keyed (st : relstate) : Prop :=
  forall key rows,
    In (key, rows) (relationshipMap st) ->
    (exists kind subtype, key = kind ++ "-" ++ subtype) /\ rows <> [].

Definition noDash (s : string) : bool :=
  forallb (fun c => negb (Ascii.eqb c "-"%char)) (list_ascii_of_string s).

(** A relationship record whose kind, subtype and model name can be read. *)
Definition relationshipHeaderTyped (rel : gomap) : bool :=
  is_string (lookup rel "Kind") && is_string (lookup rel "Subtype")
  && is_map (lookup rel "Model")
  && is_string (lookup (map_or_zero (lookup rel "Model")) "name").

Definition relationshipOf (model : string) (rel : gomap) : bool :=
  String.eqb (string_or_zero (lookup (map_or_zero (lookup rel "Model")) "name"))
             model.

(** ** Shapes of rejected-entity records *)

(** The strings of a [LongDescription] array, in order. *)
Fixpoint stringsOf (items : list value) : list string :=
  match items with
  | [] => []
  | VStr s :: items' => s :: stringsOf items'
  | _ :: items' => stringsOf items'
  end.

(** Each string followed by one space. *)
Fixpoint spaced (l : list string) : string :=
  match l with
  | [] => ""
  | s :: l' => s ++ " " ++ spaced l'
  end.

(** The three kinds of line the pass over one record prints. *)
Definition descriptionLog {E : Externals} (item : value) : event :=
  LogInfo ("Item in LongDescription is not a string: "
           ++ Sprint_v item ++ " (type " ++ Sprint_T item ++ ")").

Definition unknownLine {E : Externals} (longDescription : string)
    (entry : nat * value) : event :=
  LogInfo (newline ++ BoldString "ERROR"
           ++ ": Import process for file " ++ string_or_zero (snd entry)
           ++ " encountered error: " ++ newline ++ "    "
           ++ longDescription).

Definition combinedLine {E : Externals} (phrase longDescription : string) : event :=
  LogInfo ("  " ++ BoldString "ERROR"
           ++ ": Import did not occur for" ++ phrase
           ++ " error: " ++ newline ++ "  "
           ++ longDescription).

(** The counted entries of type "Unknown". *)
Definition unknownEntries (names entityTypes : list value) (modelName : string)
    : list (nat * value) :=
  filter (fun entry : nat * value =>
            countedIndex entityTypes modelName entry
            && String.eqb (typeAt entityTypes (fst entry)) "Unknown")
         (enumerate_from 0 names).

(** A record whose arrays, when it has all its fields, hold strings only. *)
Definition recordTyped (entity : value) : bool :=
  match as_map entity with
  | None => true
  | Some entityMap =>
      match as_slice (lookup entityMap "name"),
            as_slice (lookup entityMap "entityType"),
            as_map (lookup entityMap "error") with
      | Some names, Some entityTypes, Some _ =>
          forallb is_string names && forallb is_string entityTypes
      | _, _, _ => true
      end
  end.

(** ** More sample replies *)

(** Components of two models, all well formed. *)
Definition mkComponent (name model category version : string) : gomap :=
  [("DisplayName", VStr name);
   ("Model", VMap [("name", VStr model);
                   ("category", VMap [("name", VStr category)]);
                   ("model", VMap [("version", VStr version)])])].

Definition twoModelsReply : models_RegistryAPIResponse :=
  mkReply "imported" ["m"; "n"] (mkCounts 3 1 0)
    [mkComponent "Pod" "m" "Core" "v1";
     mkComponent "Queue" "n" "Messaging" "v2";
     mkComponent "Service" "m" "Core" "v1"]
    [[("Kind", VStr "edge"); ("Subtype", VStr "binding");
      ("Model", VMap [("name", VStr "n")])]]
    [].

(** ** Replies the report gets through *)

(** A selector whose first allowed endpoints can be read. *)
Definition selectorWellFormed (selector : value) : bool :=
  match as_map selector with
  | None => false
  | Some selectorMap =>
      match as_map (lookup selectorMap "allow") with
      | None => false
      | Some allow =>
          match as_slice (lookup allow "from"), as_slice (lookup allow "to") with
          | Some (from0 :: _), Some (to0 :: _) => is_map from0 && is_map to0
          | _, _ => false
          end
      end
  end.

Definition relationshipWellFormed (rel : gomap) : bool :=
  relationshipHeaderTyped rel
  && match as_slice (lookup rel "Selectors") with
     | Some selectors => forallb selectorWellFormed selectors
     | None => false
     end.

Definition replyWellFormed (r : models_RegistryAPIResponse) : bool :=
  forallb componentWellFormed (SuccessfulComponents (EntityTypeSummary r))
  && forallb relationshipWellFormed (SuccessfulRelationships (EntityTypeSummary r))
  && forallb recordTyped (UnsuccessfulEntityNameWithError (EntityTypeSummary r)).

(** ** What a pass over the rejected entities is expected to print *)

Definition is_slice (v : value) : bool :=
  match v with VArr _ => true | _ => false end.

Definition slice_or_zero (v : value) : list value :=
  match as_slice v with Some l => l | None => [] end.

(** The error a record is skipped with: that of the first of its four
    casts that fails, if one does. *)
Definition castFailure (entity : value) : option goerror :=
  match as_map entity with
  | None => Some (ErrTypeCast entity TMap)
  | Some entityMap =>
      match as_slice (lookup entityMap "name") with
      | None => Some (ErrTypeCast (lookup entityMap "name") TSlice)
      | Some _ =>
          match as_slice (lookup entityMap "entityType") with
          | None => Some (ErrTypeCast (lookup entityMap "entityType") TSlice)
          | Some _ =>
              match as_map (lookup entityMap "error") with
              | None => Some (ErrTypeCast (lookup entityMap "error") TMap)
              | Some _ => None
              end
          end
      end
  end.

Definition skipped (entity : value) : bool :=
  match castFailure entity with Some _ => true | None => false end.

(** A record with its four fields, whose names and entity types are
    strings and whose description is an array. *)
Definition wellFormedRecord (entity : value) : bool :=
  match castFailure entity with
  | Some _ => false
  | None =>
      forallb is_string (slice_or_zero (lookup (map_or_zero entity) "name"))
      && forallb is_string
           (slice_or_zero (lookup (map_or_zero entity) "entityType"))
      && is_slice (lookup (map_or_zero (lookup (map_or_zero entity) "error"))
                          "LongDescription")
  end.

(** What a well-formed record is rendered as under a model name: a line
    for each element of the description that is not a string, a line for
    each counted entry of type "Unknown", and, when a component or a
    relationship was counted, a blank line and the combined line. *)
Definition recordTrace {E : Externals} (modelName : string) (entity : value)
    : list event :=
  let names := slice_or_zero (lookup (map_or_zero entity) "name") in
  let entityTypes := slice_or_zero (lookup (map_or_zero entity) "entityType") in
  let items :=
    slice_or_zero (lookup (map_or_zero (lookup (map_or_zero entity) "error"))
                          "LongDescription") in
  let longDescription := TrimSpace (spaced (stringsOf items)) in
  let c := countFrom 0 names entityTypes modelName "component" in
  let r := countFrom 0 names entityTypes modelName "relationship" in
  (map descriptionLog (filter (fun item => negb (is_string item)) items)
   ++ map (unknownLine longDescription) (unknownEntries names entityTypes modelName)
   ++ (if Nat.eqb c 0 && Nat.eqb r 0 then []
       else [Println ""; combinedLine (summaryPhrase c r) longDescription]))%list.

(** What one record adds to the output of a pass. *)
Definition expectedTrace {E : Externals} (modelName : string) (entity : value)
    : list event :=
  match castFailure entity with
  | Some err => [LogError err]
  | None => recordTrace modelName entity
  end.

(** The diagnostics of a trace: its [utils.Log.Error] lines. *)
Definition isDiagnostic (e : event) : bool :=
  match e with LogError _ => true | _ => false end.

Definition diagnostics (l : list event) : nat :=
  List.length (filter isDiagnostic l).

(** The same two rejected records under two model names, and under none. *)
Definition twoBlocksReply : models_RegistryAPIResponse :=
  mkReply "rejected" ["m1"; "m2"] (mkCounts 0 0 2) [] []
    [noErrorField; threeEntities].

Definition noBlockReply : models_RegistryAPIResponse :=
  mkReply "rejected" [] (mkCounts 0 0 2) [] [] [noErrorField; threeEntities].

(** * Properties *)

Example itoa_12 : itoa 12 = "12".
Proof. reflexivity. Qed.

Example Ext_yaml : Filepath.Ext "dir.d/model.yaml" = ".yaml".
Proof. reflexivity. Qed.

Example Ext_tar_gz : Filepath.Ext "model.tar.gz" = ".gz".
Proof. reflexivity. Qed.

Example Ext_none : Filepath.Ext "a.b/model" = "".
Proof. reflexivity. Qed.

Example Base_file : Filepath.Base "/tmp/models/model.yaml" = "model.yaml".
Proof. reflexivity. Qed.

Example Base_dir : Filepath.Base "/tmp/models/" = "models".
Proof. reflexivity. Qed.

(** ** Laws of the trace monad *)

Section MonadLaws.

Context {Ev : Type}.

Lemma bind_ret_l {A B} (a : A) (f : A -> T Ev B) : bind (ret a) f = f a.
Proof. unfold bind, ret. destruct (f a). reflexivity. Qed.

Lemma bind_ret_r {A} (m : T Ev A) : bind m ret = m.
Proof.
  destruct m as [o [a | p]]; unfold bind, ret; simpl; [|reflexivity].
  now rewrite app_nil_r.
Qed.

Lemma bind_assoc {A B C} (m : T Ev A) (f : A -> T Ev B) (g : B -> T Ev C) :
  bind (bind m f) g = bind m (fun a => bind (f a) g).
Proof.
  destruct m as [o [a | p]]; unfold bind; simpl; [|reflexivity].
  destruct (f a) as [o2 [b | p2]]; simpl; [|reflexivity].
  destruct (g b) as [o3 r3]. now rewrite app_assoc.
Qed.

Lemma bind_ext {A B} (m : T Ev A) (f g : A -> T Ev B) :
  (forall a, f a = g a) -> bind m f = bind m g.
Proof.
  intros Hfg. destruct m as [o [a | p]]; unfold bind; [|reflexivity].
  now rewrite Hfg.
Qed.

Lemma bind_emit {B} (e : Ev) (k : unit -> T Ev B) :
  bind (emit e) k = (e :: events (k tt), result (k tt)).
Proof. unfold bind, emit, events, result. destruct (k tt). reflexivity. Qed.

Lemma bind_panic {A B} (p : panic_reason) (k : A -> T Ev B) :
  bind (panic p) k = panic p.
Proof. reflexivity. Qed.

Lemma events_bind_done {A B} (m : T Ev A) (f : A -> T Ev B) (a : A) :
  result m = Done a ->
  events (bind m f) = (events m ++ events (f a))%list.
Proof.
  destruct m as [o r]; unfold result, events; simpl; intros ->.
  destruct (f a); reflexivity.
Qed.

Lemma forM__app {A} (l1 l2 : list A) (body : A -> T Ev unit) :
  forM_ (l1 ++ l2)%list body = bind (forM_ l1 body) (fun _ => forM_ l2 body).
Proof.
  induction l1 as [|x l1 IH].
  - symmetry. exact (bind_ret_l tt (fun _ => forM_ l2 body)).
  - cbn [forM_ app]. rewrite bind_assoc, IH. reflexivity.
Qed.

Lemma foldM_app {A St} (l1 l2 : list A) (s : St) (body : St -> A -> T Ev St) :
  foldM (l1 ++ l2)%list s body = bind (foldM l1 s body) (fun s' => foldM l2 s' body).
Proof.
  revert s. induction l1 as [|x l1 IH]; intros s.
  - symmetry. exact (bind_ret_l s (fun s' => foldM l2 s' body)).
  - cbn [foldM app]. rewrite bind_assoc.
    apply bind_ext. intros s'. apply IH.
Qed.

Lemma In_events_bind {A B} (m : T Ev A) (f : A -> T Ev B) (e : Ev) :
  In e (events (bind m f)) ->
  In e (events m) \/ exists a, result m = Done a /\ In e (events (f a)).
Proof.
  destruct m as [o [a | p]]; unfold bind, events, result; cbn.
  - destruct (f a) as [o2 r2] eqn:Hf. cbn. intros Hin.
    apply in_app_or in Hin. destruct Hin as [Hin | Hin]; [now left|].
    right. exists a. rewrite Hf. now split.
  - now left.
Qed.


Lemma result_bind_inv {A B} (m : T Ev A) (f : A -> T Ev B) (b : B) :
  result (bind m f) = Done b ->
  exists a, result m = Done a /\ result (f a) = Done b.
Proof.
  destruct m as [o [a | p]]; unfold bind, result; cbn; [|discriminate].
  intros Hb. exists a. split; [reflexivity|]. now destruct (f a).
Qed.

Lemma foldM_invariant {A St} (P : St -> Prop) (body : St -> A -> T Ev St)
    (l : list A) (s s' : St) :
  (forall s0 x s1, result (body s0 x) = Done s1 -> P s0 -> P s1) ->
  result (foldM l s body) = Done s' -> P s -> P s'.
Proof.
  intros Hstep. revert s. induction l as [|x l IH]; intros s Hrun Hs.
  - cbn in Hrun. now injection Hrun as <-.
  - cbn [foldM] in Hrun. apply result_bind_inv in Hrun.
    destruct Hrun as (s1 & Hx & Hrun). eauto.
Qed.

End MonadLaws.

(** ** File-name extensions *)

Section Extensions.

Import Filepath.

Lemma ext_scan_app (l1 rest acc : list ascii) :
  Forall plain l1 ->
  ext_scan (l1 ++ dot :: rest) acc = dot :: (rev l1 ++ acc).
Proof.
  intros Hl. revert acc. induction Hl as [|c l1 [Hd Hs] _ IH]; intros acc.
  - reflexivity.
  - cbn [app ext_scan rev].
    apply Ascii.eqb_neq in Hd, Hs. rewrite Hd, Hs, IH.
    now rewrite <- app_assoc.
Qed.

Lemma ext_scan_inv (todo acc : list ascii) (d : ascii) (x : list ascii) :
  ext_scan todo acc = d :: x ->
  exists l1 rest,
    todo = (l1 ++ dot :: rest)%list /\ Forall plain l1
    /\ d :: x = dot :: (rev l1 ++ acc).
Proof.
  revert acc. induction todo as [|c todo IH]; intros acc Hscan; [discriminate|].
  cbn [ext_scan] in Hscan.
  destruct (Ascii.eqb_spec c slash) as [|Hs]; [discriminate|].
  destruct (Ascii.eqb_spec c dot) as [->|Hd].
  - exists [], todo. repeat split; [constructor | exact (eq_sym Hscan)].
  - destruct (IH _ Hscan) as (l1 & rest & -> & Hl & Heq).
    exists (c :: l1), rest. repeat split.
    + constructor; [split|]; assumption.
    + rewrite Heq. cbn [rev]. now rewrite <- app_assoc.
Qed.

Lemma is_prefix_iff (p l : list ascii) :
  is_prefix p l = true <-> exists rest, l = (p ++ rest)%list.
Proof.
  revert l. induction p as [|a p IH]; intros l; cbn [is_prefix].
  - split; [intros _; now exists l | reflexivity].
  - destruct l as [|b l].
    + split; [discriminate | intros [rest Hrest]; discriminate].
    + rewrite andb_true_iff, Ascii.eqb_eq, IH. split.
      * intros [-> [rest ->]]. now exists rest.
      * intros [rest Hrest]. injection Hrest as -> ->. split; [reflexivity | now exists rest].
Qed.

(** For an extension made of a dot and plain characters, [Ext] returns it
    exactly on the names that end with it. *)
Lemma Ext_plain_suffix (name : string) (t : list ascii) :
  Forall plain t ->
  String.eqb (Ext name) (string_of_list_ascii (dot :: t))
  = HasSuffix name (string_of_list_ascii (dot :: t)).
Proof.
  intros Ht. unfold Ext, HasSuffix.
  rewrite list_ascii_of_string_of_list_ascii.
  set (rl := rev (list_ascii_of_string name)).
  apply eq_true_iff_eq. rewrite String.eqb_eq, is_prefix_iff. split.
  - intros Heq.
    apply (f_equal list_ascii_of_string) in Heq.
    rewrite !list_ascii_of_string_of_list_ascii in Heq.
    destruct (ext_scan_inv _ _ _ _ Heq) as (l1 & rest & -> & _ & Hx).
    injection Hx as Hx. rewrite app_nil_r in Hx. subst t.
    exists rest. cbn [rev]. rewrite rev_involutive, <- app_assoc. reflexivity.
  - intros [rest ->]. f_equal. cbn [rev]. rewrite <- app_assoc. cbn [app].
    rewrite ext_scan_app.
    + now rewrite rev_involutive, app_nil_r.
    + apply Forall_rev. exact Ht.
Qed.

(** [Ext] never returns an extension with a second dot in it. *)
Lemma Ext_one_dot (name : string) (t1 t2 : list ascii) :
  String.eqb (Ext name) (string_of_list_ascii (dot :: t1 ++ dot :: t2)) = false.
Proof.
  apply String.eqb_neq. unfold Ext. intros Heq.
  apply (f_equal list_ascii_of_string) in Heq.
  rewrite !list_ascii_of_string_of_list_ascii in Heq.
  destruct (ext_scan_inv _ _ _ _ Heq) as (l1 & rest & _ & Hl & Hx).
  injection Hx as Hx. rewrite app_nil_r in Hx.
  apply Forall_rev in Hl. rewrite <- Hx in Hl.
  apply Forall_app in Hl. destruct Hl as [_ Hl].
  inversion Hl as [|? ? [Hd _] _]. now apply Hd.
Qed.

End Extensions.

(** ** The report: short-circuit and model classification *)

Section Classification.

Context {E : Externals}.

Lemma classify_from (names : list string) (g : groups) :
  fold_left classifyStep names g
  = {| modelsWithoutExtension :=
         (modelsWithoutExtension g
          ++ filter (fun m => named m && negb (hasExtension m)) names)%list;
       modelsWithExtension :=
         (modelsWithExtension g
          ++ filter (fun m => named m && hasExtension m) names)%list |}.
Proof.
  revert g. induction names as [|m names IH]; intros g; cbn [fold_left filter].
  - rewrite !app_nil_r. now destruct g.
  - rewrite IH. unfold classifyStep, named.
    destruct (String.eqb m ""); cbn [negb andb]; [reflexivity|].
    destruct (hasExtension m); cbn [negb modelsWithoutExtension modelsWithExtension];
      now rewrite <- app_assoc.
Qed.

Lemma classify_filter (names : list string) :
  classify names
  = {| modelsWithoutExtension :=
         filter (fun m => named m && negb (hasExtension m)) names;
       modelsWithExtension :=
         filter (fun m => named m && hasExtension m) names |}.
Proof. unfold classify. now rewrite classify_from. Qed.

Ltac ext_as_suffix name t e :=
  let H := fresh "Hext" in
  assert (H : String.eqb (Filepath.Ext name) e = HasSuffix name e)
    by (apply (Ext_plain_suffix name (list_ascii_of_string t));
        repeat constructor; discriminate);
  rewrite H; clear H.

Lemma hasExtension_suffix (name : string) :
  hasExtension name
  = HasSuffix name ".json" || HasSuffix name ".yaml" || HasSuffix name ".yml"
    || false || HasSuffix name ".tar" || HasSuffix name ".zip"
    || HasSuffix name ".tgz".
Proof.
  unfold hasExtension. cbv zeta.
  ext_as_suffix name "json" ".json".
  ext_as_suffix name "yaml" ".yaml".
  ext_as_suffix name "yml" ".yml".
  ext_as_suffix name "tar" ".tar".
  ext_as_suffix name "zip" ".zip".
  ext_as_suffix name "tgz" ".tgz".
  assert (Hgz : String.eqb (Filepath.Ext name) ".tar.gz" = false)
    by apply (Ext_one_dot name (list_ascii_of_string "tar")
                          (list_ascii_of_string "gz")).
  now rewrite Hgz.
Qed.

(** The comparison with ".tar.gz" in [hasExtension] never succeeds: a name
    that ends in ".tar.gz" has the extension ".gz". *)
Lemma hasExtension_tar_gz (name : string) :
  HasSuffix name ".tar.gz" = true -> hasExtension name = false.
Proof.
  intros Hsuf. rewrite hasExtension_suffix.
  unfold HasSuffix in *. apply is_prefix_iff in Hsuf. destruct Hsuf as [rest ->].
  reflexivity.
Qed.

Lemma displayModelInfo_plain (r : models_RegistryAPIResponse) (m : string) :
  displayModelInfo r m false = (emit (modelHeader m) ;;; modelDetails r m).
Proof. reflexivity. Qed.

Lemma displayModelInfo_file (r : models_RegistryAPIResponse) (m : string) :
  displayModelInfo r m true = modelDetails r m.
Proof.
  unfold displayModelInfo. cbn [negb].
  exact (bind_ret_l tt (fun _ => modelDetails r m)).
Qed.

Lemma forM__ext {A} (l : list A) (f g : A -> M unit) :
  (forall a, f a = g a) -> forM_ l f = forM_ l g.
Proof.
  intros Hfg. induction l as [|x l IH]; cbn [forM_]; [reflexivity|].
  now rewrite Hfg, IH.
Qed.

(** C1, as the code has it: a reply that names a model and counts no
    component, no relationship and no error produces no output at all,
    neither the summary line nor a block for any model. *)
Theorem displayEntities_idle (r : models_RegistryAPIResponse) :
  ModelName r <> [] ->
  CompCount (EntityCount r) = 0%Z ->
  RelCount (EntityCount r) = 0%Z ->
  TotalErrCount (EntityCount r) = 0%Z ->
  displayEntities r = ret tt.
Proof.
  intros Hnames Hc Hr He. unfold displayEntities, displayEmtpyModel.
  rewrite Hc, Hr, He. destruct (ModelName r); [contradiction|]. reflexivity.
Qed.

(** C2, as the code has it: empty names are dropped; every other name goes
    to the group of file names when [hasExtension] holds of it and to the
    group of model names otherwise, both groups in the order of the reply
    and with repeats kept; the blocks of the model names come first, each
    under its "MODEL: name" line, then the blocks of the file names without
    such a line; and on a name that does not end in ".tar.gz",
    [hasExtension] is the test for one of the listed extensions. *)
Theorem model_partition (r : models_RegistryAPIResponse) :
  classify (ModelName r)
  = {| modelsWithoutExtension :=
         filter (fun m => named m && negb (hasExtension m)) (ModelName r);
       modelsWithExtension :=
         filter (fun m => named m && hasExtension m) (ModelName r) |}
  /\ displayEntitisIfModel r
     = (forM_ (filter (fun m => named m && negb (hasExtension m)) (ModelName r))
              (fun m => emit (modelHeader m) ;;; modelDetails r m) ;;;
        forM_ (filter (fun m => named m && hasExtension m) (ModelName r))
              (modelDetails r))
  /\ (forall name,
        HasSuffix name ".tar.gz" = false ->
        hasExtension name = hasRecognizedExtension name).
Proof.
  split; [apply classify_filter|]. split.
  - unfold displayEntitisIfModel. cbv zeta. rewrite classify_filter.
    cbn [modelsWithoutExtension modelsWithExtension].
    rewrite (forM__ext _ (fun model => displayModelInfo r model false)
                       (fun m => emit (modelHeader m) ;;; modelDetails r m)
                       (displayModelInfo_plain r)).
    rewrite (forM__ext _ (fun model => displayModelInfo r model true)
                       (modelDetails r) (displayModelInfo_file r)).
    reflexivity.
  - intros name Hgz. rewrite hasExtension_suffix.
    unfold hasRecognizedExtension, recognizedExtensions. cbn [existsb].
    rewrite Hgz, !orb_assoc, !orb_false_r. reflexivity.
Qed.

(** C8: the empty model name is in neither group, and the blocks printed
    are those of the reply with its empty names taken out. *)
Theorem empty_model_name_skipped (r : models_RegistryAPIResponse) :
  ~ In "" (modelsWithoutExtension (classify (ModelName r)))
  /\ ~ In "" (modelsWithExtension (classify (ModelName r)))
  /\ displayEntitisIfModel r
     = displayEntitisIfModel (withModelNames (filter named (ModelName r)) r).
Proof.
  rewrite classify_filter. cbn [modelsWithoutExtension modelsWithExtension].
  repeat split.
  - intros Hin. apply filter_In in Hin. destruct Hin as [_ Hin]. discriminate.
  - intros Hin. apply filter_In in Hin. destruct Hin as [_ Hin]. discriminate.
  - unfold displayEntitisIfModel. cbv zeta.
    cbn [ModelName withModelNames]. rewrite !classify_filter.
    cbn [modelsWithoutExtension modelsWithExtension].
    assert (Hkeep : forall p : string -> bool,
               filter (fun m => named m && p m) (filter named (ModelName r))
               = filter (fun m => named m && p m) (ModelName r)).
    { intros p. induction (ModelName r) as [|m l IH]; [reflexivity|].
      cbn [filter]. destruct (named m) eqn:Hm; cbn [andb filter]; [|exact IH].
      rewrite Hm. cbn [andb]. now rewrite IH. }
    rewrite (Hkeep (fun m => negb (hasExtension m))), (Hkeep hasExtension).
    reflexivity.
Qed.

End Classification.

(** C1, as the specification words it, fails: the reply [idleReply] names
    a model and counts nothing, and the report is empty instead of being
    the summary line. *)
Lemma summary_line_missing :
  ModelName idleReply <> []
  /\ EntityCount idleReply = mkCounts 0 0 0
  /\ events (displayEntities idleReply) = []
  /\ events (displayEntities idleReply) <> events (displaySummary idleReply).
Proof. repeat split; discriminate. Qed.

Lemma displayEntities_idle_witness : displayEntities idleReply = ret tt.
Proof.
  apply (displayEntities_idle idleReply); [discriminate | reflexivity ..].
Defined.

(** C2, as the specification words it, fails: the empty name has none of
    the listed extensions, and no "MODEL:" line is printed for it. *)
Lemma empty_name_has_no_header :
  In "" (ModelName namelessReply)
  /\ hasRecognizedExtension "" = false
  /\ ~ In (modelHeader "") (events (displayEntitisIfModel namelessReply))
  /\ events (displayEntities namelessReply) = [LogInfo "SUMMARY: imported"].
Proof.
  repeat split; [now left | intros []].
Qed.

Lemma model_partition_witness :
  classify ["model-a"; "file.yaml"; ""; "model-b"; "model-a"]
  = {| modelsWithoutExtension := ["model-a"; "model-b"; "model-a"];
       modelsWithExtension := ["file.yaml"] |}
  /\ hasExtension "bundle.tgz" = hasRecognizedExtension "bundle.tgz".
Proof.
  destruct (model_partition
              (mkReply "imported" ["model-a"; "file.yaml"; ""; "model-b"; "model-a"]
                       (mkCounts 1 0 0) [] [] [])) as (Hgroups & _ & Hext).
  split; [exact Hgroups | apply Hext; reflexivity].
Defined.

(** ** The report: components and relationships *)

Section Relationships.

Context {E : Externals}.

Lemma rangeOrder_singleton (entry : string * list (list string)) :
  rangeOrder [entry] = [entry].
Proof.
  apply Permutation_length_1_inv, Permutation_sym, rangeOrder_perm.
Qed.

(** What one well-formed record with one selector does to the two maps. *)
Lemma relationshipRows_mk (model kind subtype from to : string) (extra : gomap)
    (st : relstate) :
  relationshipRows model st (mkRelationship kind subtype model from to extra)
  = ret (if seen_has (seen st) (((kind ++ "-" ++ subtype) ++ from) ++ to)
         then st
         else {| seen := (((kind ++ "-" ++ subtype) ++ from) ++ to) :: seen st;
                 relationshipMap :=
                   appendRow (relationshipMap st) (kind ++ "-" ++ subtype)
                             [from; to] |}).
Proof.
  unfold relationshipRows, mkRelationship. cbn.
  rewrite String.eqb_refl. cbn.
  destruct (seen_has _ _); reflexivity.
Qed.

Lemma Split_nonempty (sep : ascii) (s : string) : Split sep s <> [].
Proof.
  destruct s as [|c s]; cbn [Split]; [discriminate|].
  destruct (Ascii.eqb c sep); [discriminate|].
  destruct (Split sep s); discriminate.
Qed.

(** A key always splits into at least two parts. *)
Lemma Split_key (kind subtype : string) :
  exists p0 p1 rest,
    Split "-"%char (kind ++ "-" ++ subtype) = p0 :: p1 :: rest.
Proof.
  change ("-" ++ subtype) with (String "-"%char subtype).
  induction kind as [|c kind IH].
  - cbn. destruct (Split "-"%char subtype) as [|p1 rest] eqn:Hs.
    + now apply Split_nonempty in Hs.
    + now exists "", p1, rest.
  - cbn [append Split]. destruct (Ascii.eqb c "-"%char).
    + destruct IH as (p0 & p1 & rest & ->). now exists "", p0, (p1 :: rest).
    + destruct IH as (p0 & p1 & rest & ->). now exists (String c p0), p1, rest.
Qed.

(** A table is printed for every key that has rows. *)
Lemma relationshipTable_rows (kind subtype : string) (row : list string)
    (rows : list (list string)) :
  exists p0 p1,
    relationshipTable (kind ++ "-" ++ subtype, row :: rows)
    = ([Println "";
        LogInfo ("  " ++ (if Nat.ltb 1 (List.length (row :: rows))
                          then BoldString "RELATIONSHIPS:"
                          else BoldString "RELATIONSHIP:")
                 ++ " Kind of " ++ p0 ++ " and sub type " ++ p1);
        PrintToTable ["From"; "To"] (row :: rows)], Done tt).
Proof.
  destruct (Split_key kind subtype) as (p0 & p1 & rest & Hsplit).
  exists p0, p1. unfold relationshipTable. rewrite Hsplit. reflexivity.
Qed.

(** C3 fails on the code: a component record without a "Model" field, or
    a relationship record whose "Kind" is not a string, ends the report
    with a panic right after the "MODEL:" line; nothing is logged for the
    record and no later record is looked at. *)
Theorem malformed_record_panics :
  displayEntities bareComponentReply
  = ([LogInfo (BoldString "SUMMARY" ++ ": imported"); modelHeader "m"],
     Panicked (TypeAssertion VNil TMap))
  /\ displayEntities numericKindReply
     = ([LogInfo (BoldString "SUMMARY" ++ ": imported"); modelHeader "m"],
        Panicked (TypeAssertion (VNum 7) TString)).
Proof. split; reflexivity. Qed.

(** C4 fails on the code: of the three records of [collidingReply] the
    last two agree on kind, subtype, from and to, and the one table printed
    has no row for them, because the first record has the same
    concatenated key. *)
Theorem colliding_rows_dropped :
  displaySuccessfulRelationships collidingReply "m"
  = ([Println "";
      LogInfo ("  " ++ BoldString "RELATIONSHIP:"
               ++ " Kind of edge and sub type binding");
      PrintToTable ["From"; "To"] [["Config"; "MapStore"]]], Done tt).
Proof.
  unfold displaySuccessfulRelationships, collidingReply.
  cbn [SuccessfulRelationships EntityTypeSummary mkReply List.length Nat.ltb Nat.leb foldM].
  rewrite !relationshipRows_mk. cbn. rewrite rangeOrder_singleton. reflexivity.
Qed.

(** C10: two relationships that differ in their endpoints can have one
    concatenated key, and whenever two records of a model do, the report is
    the one of the first record alone: one table with one row. *)
Theorem concatenated_key_collision :
  (exists kind subtype from1 to1 from2 to2 : string,
      (from1, to1) <> (from2, to2)
      /\ ((kind ++ "-" ++ subtype) ++ from1) ++ to1
         = ((kind ++ "-" ++ subtype) ++ from2) ++ to2)
  /\ (forall (msg model kind subtype from1 to1 from2 to2 : string)
            (names : list string) (counts : models_EntityCount)
            (extra1 extra2 : gomap),
        ((kind ++ "-" ++ subtype) ++ from1) ++ to1
        = ((kind ++ "-" ++ subtype) ++ from2) ++ to2 ->
        exists p0 p1,
          displaySuccessfulRelationships
            (mkReply msg names counts []
               [mkRelationship kind subtype model from1 to1 extra1;
                mkRelationship kind subtype model from2 to2 extra2] [])
            model
          = ([Println "";
              LogInfo ("  " ++ BoldString "RELATIONSHIP:" ++ " Kind of " ++ p0
                       ++ " and sub type " ++ p1);
              PrintToTable ["From"; "To"] [[from1; to1]]], Done tt)).
Proof.
  split.
  - exists "edge", "binding", "Config", "MapStore", "ConfigMap", "Store".
    split; [discriminate | reflexivity].
  - intros msg model kind subtype from1 to1 from2 to2 names counts extra1 extra2 Hkey.
    destruct (relationshipTable_rows kind subtype [from1; to1] [])
      as (p0 & p1 & Htable).
    exists p0, p1.
    unfold displaySuccessfulRelationships.
    cbn [SuccessfulRelationships EntityTypeSummary mkReply List.length Nat.ltb Nat.leb foldM].
    rewrite relationshipRows_mk. cbn [seen seen_has existsb relationshipMap appendRow].
    rewrite bind_ret_l, relationshipRows_mk.
    cbn [seen seen_has existsb relationshipMap appendRow].
    rewrite <- Hkey, String.eqb_refl. cbn [orb].
    rewrite bind_ret_l, bind_ret_l. cbn [relationshipMap].
    rewrite rangeOrder_singleton. cbn [forM_].
    rewrite Htable. reflexivity.
Qed.

(** *** No row twice in a table *)

Lemma In_appendRow (m : relmap) (key k : string) (row : list string)
    (rows : list (list string)) :
  In (k, rows) (appendRow m key row) ->
  In (k, rows) m
  \/ (k = key
      /\ (rows = [row]
          \/ exists rows0, In (key, rows0) m /\ rows = (rows0 ++ [row])%list)).
Proof.
  induction m as [|[k0 rows0] m IH]; cbn [appendRow].
  - intros [Heq | []]. injection Heq as <- <-. right. split; [reflexivity | now left].
  - destruct (String.eqb_spec k0 key) as [-> | Hk].
    + intros [Heq | Hin].
      * injection Heq as <- <-. right. split; [reflexivity|].
        right. exists rows0. split; [now left | reflexivity].
      * left. now right.
    + intros [Heq | Hin].
      * left. now left.
      * destruct (IH Hin) as [Hold | (-> & [-> | (rows1 & Hin1 & ->)])].
        -- left. now right.
        -- right. split; [reflexivity | now left].
        -- right. split; [reflexivity|]. right. exists rows1.
           split; [now right | reflexivity].
Qed.

Lemma deduplicated_add (st : relstate) (key from to : string) :
  deduplicated st ->
  seen_has (seen st) ((key ++ from) ++ to) = false ->
  deduplicated
    {| seen := ((key ++ from) ++ to) :: seen st;
       relationshipMap := appendRow (relationshipMap st) key [from; to] |}.
Proof.
  intros Hinv Hnew k rows Hin. cbn [relationshipMap seen] in *.
  assert (Hmono : forall x, seen_has (seen st) x = true ->
                            seen_has (((key ++ from) ++ to) :: seen st) x = true).
  { intros x Hx. unfold seen_has in *. cbn [existsb]. rewrite Hx. apply orb_true_r. }
  assert (Hhead : seen_has (((key ++ from) ++ to) :: seen st) ((key ++ from) ++ to)
                  = true).
  { unfold seen_has. cbn [existsb]. now rewrite String.eqb_refl. }
  apply In_appendRow in Hin.
  destruct Hin as [Hold | (-> & [-> | (rows0 & Hin0 & ->)])].
  - destruct (Hinv _ _ Hold) as [Hnd Hseen]. split; [exact Hnd|].
    intros f t Hft. apply Hmono. now apply Hseen.
  - split; [repeat constructor; intros []|].
    intros f t [Heq | []]. injection Heq as <- <-. exact Hhead.
  - destruct (Hinv _ _ Hin0) as [Hnd Hseen]. split.
    + apply NoDup_app; [exact Hnd | repeat constructor; intros [] |].
      intros row Hrow [<- | []].
      rewrite (Hseen _ _ Hrow) in Hnew. discriminate.
    + intros f t Hft. apply in_app_or in Hft. destruct Hft as [Hft | [Heq | []]].
      * apply Hmono. now apply Hseen.
      * injection Heq as <- <-. exact Hhead.
Qed.

Ltac bind_inv Hrun x :=
  let Hx := fresh "H" x in
  apply result_bind_inv in Hrun; destruct Hrun as (x & Hx & Hrun).

Lemma selectorRow_deduplicated (kind subtype : string) (st st' : relstate)
    (selector : value) :
  result (selectorRow kind subtype st selector) = Done st' ->
  deduplicated st -> deduplicated st'.
Proof.
  unfold selectorRow. intros Hrun Hinv.
  bind_inv Hrun selectorMap. bind_inv Hrun allow.
  bind_inv Hrun from. bind_inv Hrun to.
  bind_inv Hrun from0. bind_inv Hrun fromMap.
  bind_inv Hrun to0. bind_inv Hrun toMap.
  destruct (seen_has (seen st) _) eqn:Hseen; cbn in Hrun; injection Hrun as <-.
  - exact Hinv.
  - now apply deduplicated_add.
Qed.

Lemma relationshipRows_deduplicated (model : string) (st st' : relstate)
    (rel : gomap) :
  result (relationshipRows model st rel) = Done st' ->
  deduplicated st -> deduplicated st'.
Proof.
  unfold relationshipRows. intros Hrun Hinv.
  bind_inv Hrun kind. bind_inv Hrun subtype.
  bind_inv Hrun modelMap. bind_inv Hrun modelName.
  destruct (negb (String.eqb modelName model)).
  - cbn in Hrun. now injection Hrun as <-.
  - bind_inv Hrun selectors.
    apply (foldM_invariant deduplicated _ _ _ _
             (fun s0 x s1 => selectorRow_deduplicated kind subtype s0 s1 x)
             Hrun Hinv).
Qed.

Lemma silent_bind {A B} (m : M A) (f : A -> M B) :
  silent m -> (forall a, silent (f a)) -> silent (bind m f).
Proof.
  unfold silent, events. intros Hm Hf. destruct m as [o [a | p]]; cbn in *.
  - specialize (Hf a). destruct (f a). cbn in *. now subst.
  - exact Hm.
Qed.

Lemma silent_foldM {A St} (l : list A) (s : St) (body : St -> A -> M St) :
  (forall s0 x, silent (body s0 x)) -> silent (foldM l s body).
Proof.
  intros Hbody. revert s. induction l as [|x l IH]; intros s; [reflexivity|].
  cbn [foldM]. apply silent_bind; [apply Hbody | intros s'; apply IH].
Qed.

Lemma silent_assert_string (v : value) : silent (assert_string v).
Proof. now destruct v. Qed.

Lemma silent_assert_slice (v : value) : silent (assert_slice v).
Proof. now destruct v. Qed.

Lemma silent_assert_map (v : value) : silent (assert_map v).
Proof. now destruct v. Qed.

Lemma silent_index {A} (l : list A) (i : nat) : silent (index l i).
Proof. unfold index. now destruct (nth_error l i). Qed.

Lemma silent_relationshipRows (model : string) (st : relstate) (rel : gomap) :
  silent (relationshipRows model st rel).
Proof.
  unfold relationshipRows.
  repeat (apply silent_bind;
          [first [apply silent_assert_string | apply silent_assert_map
                 | apply silent_assert_slice] | intros ?]).
  destruct (negb _); [reflexivity|].
  apply silent_bind; [apply silent_assert_slice | intros selectors].
  apply silent_foldM. intros s0 selector. unfold selectorRow.
  repeat (apply silent_bind;
          [first [apply silent_assert_map | apply silent_assert_slice
                 | apply silent_index] | intros ?]).
  destruct (seen_has _ _); reflexivity.
Qed.

Lemma relationshipTable_prints (entry : string * list (list string))
    (header : list string) (rows : list (list string)) :
  In (PrintToTable header rows) (events (relationshipTable entry)) ->
  rows = snd entry.
Proof.
  destruct entry as [key rows0]. unfold relationshipTable, index.
  destruct (Nat.ltb 0 (List.length rows0)); [|intros []].
  destruct (Split "-"%char key) as [|p0 [|p1 rest]]; cbn.
  - intros [Hin | []]. discriminate.
  - intros [Hin | []]. discriminate.
  - intros [Hin | [Hin | [Hin | []]]]; try discriminate. now injection Hin.
Qed.

Lemma tables_print_entries (m : relmap) (header : list string)
    (rows : list (list string)) :
  In (PrintToTable header rows) (events (forM_ m relationshipTable)) ->
  exists key, In (key, rows) m.
Proof.
  induction m as [|[key rows0] m IH]; cbn [forM_]; [intros []|].
  intros Hin. apply In_events_bind in Hin. destruct Hin as [Hin | (_ & _ & Hin)].
  - apply relationshipTable_prints in Hin. cbn in Hin. subst rows0.
    exists key. now left.
  - destruct (IH Hin) as [k Hk]. exists k. now right.
Qed.

(** X14: every table the relationship pass prints has pairwise distinct rows:
    a second record with the kind, subtype, from and to of an earlier one
    adds no row. *)
Theorem relationship_rows_distinct (r : models_RegistryAPIResponse)
    (model : string) (header : list string) (rows : list (list string)) :
  In (PrintToTable header rows) (events (displaySuccessfulRelationships r model)) ->
  NoDup rows.
Proof.
  unfold displaySuccessfulRelationships. cbv zeta.
  destruct (Nat.ltb 0 _); [|intros []].
  intros Hin. apply In_events_bind in Hin. destruct Hin as [Hin | (st & Hst & Hin)].
  - rewrite (silent_foldM _ _ _ (silent_relationshipRows model)) in Hin.
    destruct Hin.
  - apply tables_print_entries in Hin. destruct Hin as [key Hin].
    apply (Permutation_in _ (rangeOrder_perm _)) in Hin.
    assert (Hinv : deduplicated st).
    { apply (foldM_invariant deduplicated _ _ _ _
               (fun s0 x s1 => relationshipRows_deduplicated model s0 s1 x) Hst).
      intros k rows0 []. }
    now destruct (Hinv _ _ Hin).
Qed.

End Relationships.

Lemma collision_on_plain_terminal :
  events (displaySuccessfulRelationships collidingReply "m")
  = [Println "";
     LogInfo "  RELATIONSHIP: Kind of edge and sub type binding";
     PrintToTable ["From"; "To"] [["Config"; "MapStore"]]].
Proof. reflexivity. Qed.

Lemma concatenated_key_collision_witness :
  exists p0 p1,
    displaySuccessfulRelationships
      (mkReply "imported" ["m"] (mkCounts 0 2 0) []
         [mkRelationship "edge" "binding" "m" "Config" "MapStore" [];
          mkRelationship "edge" "binding" "m" "ConfigMap" "Store" []] [])
      "m"
    = ([Println "";
        LogInfo ("  " ++ BoldString "RELATIONSHIP:" ++ " Kind of " ++ p0
                 ++ " and sub type " ++ p1);
        PrintToTable ["From"; "To"] [["Config"; "MapStore"]]], Done tt).
Proof.
  destruct (@concatenated_key_collision plainTerminal) as [_ Hdrop].
  apply (Hdrop "imported" "m" "edge" "binding" "Config" "MapStore"
               "ConfigMap" "Store" ["m"] (mkCounts 0 2 0) [] []).
  reflexivity.
Defined.

(** ** The report: entities that were not imported *)

Section Unsuccessful.

Context {E : Externals}.

Lemma foldM_range_app {A St} (l1 l2 : list A) (i : nat) (s : St)
    (body : nat -> A -> St -> M St) :
  foldM_range i (l1 ++ l2)%list s body
  = (s' <- foldM_range i l1 s body ;;
     foldM_range (i + List.length l1) l2 s' body).
Proof.
  revert i s. induction l1 as [|x l1 IH]; intros i s.
  - cbn [app List.length foldM_range]. rewrite Nat.add_0_r.
    symmetry. exact (bind_ret_l s (fun s' => foldM_range i l2 s' body)).
  - cbn [app List.length foldM_range]. rewrite bind_assoc.
    apply bind_ext. intros s'. rewrite IH. now rewrite Nat.add_succ_comm.
Qed.

Lemma foldM_range_idle {A St} (l : list A) (i : nat) (s : St)
    (body : nat -> A -> St -> M St) :
  (forall j x s', i <= j -> In x l -> body j x s' = ret s') ->
  foldM_range i l s body = ret s.
Proof.
  revert i. induction l as [|x l IH]; intros i Hidle; [reflexivity|].
  cbn [foldM_range]. rewrite Hidle; [|lia|now left].
  rewrite bind_ret_l. apply IH. intros j y s' Hj Hy. apply Hidle; [lia | now right].
Qed.

Lemma entityTypeAt_past_end (entityTypes : list value) (i : nat) :
  List.length entityTypes <= i -> entityTypeAt entityTypes i = ret "".
Proof.
  intros Hi. unfold entityTypeAt.
  destruct (Nat.ltb_spec i (List.length entityTypes)); [lia | reflexivity].
Qed.

Lemma entityTypeAt_typed (entityTypes : list value) (i : nat) :
  forallb is_string entityTypes = true ->
  entityTypeAt entityTypes i = ret (typeAt entityTypes i).
Proof.
  intros Htyped. unfold entityTypeAt, typeAt, index.
  destruct (Nat.ltb_spec i (List.length entityTypes)) as [Hi | Hi].
  - destruct (nth_error entityTypes i) as [v|] eqn:Hv.
    + rewrite forallb_forall in Htyped.
      specialize (Htyped v (nth_error_In _ _ Hv)).
      destruct v; try discriminate. reflexivity.
    + apply nth_error_None in Hv. lia.
  - apply nth_error_None in Hi. now rewrite Hi.
Qed.

(** An index past the end of [entityTypes] leaves no trace. *)
Lemma entityStep_past_end (entityTypes : list value)
    (longDescription modelName : string) (i : nat) (name : value)
    (st : counters) :
  List.length entityTypes <= i ->
  is_string name = true ->
  entityStep entityTypes longDescription modelName i name st = ret st.
Proof.
  intros Hi Hname. unfold entityStep.
  rewrite (entityTypeAt_past_end _ _ Hi), bind_ret_l.
  destruct name as [| | |n| |]; try discriminate.
  destruct (String.eqb modelName "") eqn:Hm; cbn.
  - reflexivity.
  - destruct (String.eqb modelName n); reflexivity.
Qed.

Lemma in_bounds_bind {A B} (m : M A) (f : A -> M B) :
  in_bounds m -> (forall a, in_bounds (f a)) -> in_bounds (bind m f).
Proof.
  intros Hm Hf i n. destruct m as [o [a | p]]; unfold bind, result.
  - specialize (Hf a i n). destruct (f a). exact Hf.
  - intros Heq. apply (Hm i n). cbn in *. injection Heq as ->. reflexivity.
Qed.

Lemma in_bounds_ret {A} (a : A) : in_bounds (ret (Ev := event) a).
Proof. intros i n. discriminate. Qed.

Lemma in_bounds_assert_string (v : value) : in_bounds (assert_string v).
Proof. intros i n. destruct v; discriminate. Qed.

Lemma in_bounds_entityTypeAt (entityTypes : list value) (i : nat) :
  in_bounds (entityTypeAt entityTypes i).
Proof.
  unfold entityTypeAt, index.
  destruct (Nat.ltb_spec i (List.length entityTypes)) as [Hi | Hi];
    [|apply in_bounds_ret].
  destruct (nth_error entityTypes i) as [v|] eqn:Hv.
  - rewrite bind_ret_l. apply in_bounds_assert_string.
  - apply nth_error_None in Hv. lia.
Qed.

Lemma in_bounds_entityStep (entityTypes : list value)
    (longDescription modelName : string) (i : nat) (name : value)
    (st : counters) :
  in_bounds (entityStep entityTypes longDescription modelName i name st).
Proof.
  unfold entityStep.
  apply in_bounds_bind; [apply in_bounds_entityTypeAt | intros entityType].
  apply in_bounds_bind.
  - destruct (negb (String.eqb modelName "")).
    + apply in_bounds_bind; [apply in_bounds_assert_string | intros n].
      apply in_bounds_ret.
    + destruct (String.eqb modelName ""); apply in_bounds_ret.
  - intros [|]; [apply in_bounds_ret|].
    destruct (String.eqb entityType "Unknown").
    + apply in_bounds_bind; [apply in_bounds_assert_string | intros n].
      intros j k. discriminate.
    + destruct (String.eqb entityType "component"); [apply in_bounds_ret|].
      destruct (String.eqb entityType "relationship"); apply in_bounds_ret.
Qed.

Lemma in_bounds_foldM_range {A St} (l : list A) (i : nat) (s : St)
    (body : nat -> A -> St -> M St) :
  (forall j x s', in_bounds (body j x s')) ->
  in_bounds (foldM_range i l s body).
Proof.
  intros Hbody. revert i s. induction l as [|x l IH]; intros i s.
  - apply in_bounds_ret.
  - cbn [foldM_range]. apply in_bounds_bind; [apply Hbody | intros s'; apply IH].
Qed.

Lemma result_bind_done {A B} (m : M A) (f : A -> M B) (a : A) :
  result m = Done a -> result (bind m f) = result (f a).
Proof.
  destruct m as [o r]. unfold result, bind. cbn. intros ->.
  now destruct (f a).
Qed.

Lemma append_empty_r (s : string) : s ++ "" = s.
Proof. induction s as [|c s IH]; cbn; [reflexivity | now rewrite IH]. Qed.

Lemma entityTypeLineOf_phrase (st : counters) :
  entityTypeLineOf st = summaryPhrase (compCount st) (relCount st).
Proof.
  unfold entityTypeLineOf, summaryPhrase, typePhrase, entityWord.
  destruct st as [[|[|c]] [|[|r]]];
    cbn [compCount relCount Nat.ltb Nat.leb Nat.eqb andb negb];
    cbn [append]; rewrite ?append_empty_r; reflexivity.
Qed.

(** One iteration on well-typed arrays: no panic, and the counters move
    by what the entry counts for. *)
Lemma entityStep_typed (entityTypes : list value)
    (longDescription modelName : string) (i : nat) (name : value)
    (st : counters) :
  forallb is_string entityTypes = true ->
  is_string name = true ->
  result (entityStep entityTypes longDescription modelName i name st)
  = Done {| compCount :=
              compCount st
              + bump (countedIndex entityTypes modelName (i, name)
                      && String.eqb (typeAt entityTypes i) "component");
            relCount :=
              relCount st
              + bump (countedIndex entityTypes modelName (i, name)
                      && String.eqb (typeAt entityTypes i) "relationship") |}.
Proof.
  intros Htypes Hname. unfold entityStep, countedIndex.
  rewrite (entityTypeAt_typed _ _ Htypes), bind_ret_l.
  generalize (typeAt entityTypes i) as ty. intros ty.
  destruct name as [| | |n| |]; try discriminate.
  destruct st as [c r]. cbn [string_or_zero as_string compCount relCount].
  destruct (String.eqb modelName "") eqn:Hm; cbn [negb].
  - rewrite bind_ret_l.
    destruct (String.eqb_spec ty "Unknown") as [->|Hty]; cbn [negb andb bump].
    + cbn. now rewrite !Nat.add_0_r.
    + cbn. now rewrite !Nat.add_0_r.
  - cbn [assert_string as_string]. rewrite !bind_ret_l.
    destruct (String.eqb modelName n); cbn [negb andb bump].
    + destruct (String.eqb_spec ty "Unknown") as [->|Hty].
      * cbn. now rewrite !Nat.add_0_r.
      * destruct (String.eqb_spec ty "component") as [->|Hc].
        { cbn. now rewrite Nat.add_0_r, Nat.add_1_r. }
        destruct (String.eqb ty "relationship"); cbn [bump].
        { cbn. now rewrite Nat.add_0_r, Nat.add_1_r. }
        cbn. now rewrite !Nat.add_0_r.
    + cbn. now rewrite !Nat.add_0_r.
Qed.

Lemma walk_counts (entityTypes : list value) (longDescription modelName : string)
    (names : list value) (i : nat) (st : counters) :
  forallb is_string entityTypes = true ->
  forallb is_string names = true ->
  result (foldM_range i names st
            (entityStep entityTypes longDescription modelName))
  = Done {| compCount :=
              compCount st + countFrom i names entityTypes modelName "component";
            relCount :=
              relCount st + countFrom i names entityTypes modelName "relationship" |}.
Proof.
  intros Htypes. revert i st.
  induction names as [|name names IH]; intros i st Hnames.
  - cbn. rewrite !Nat.add_0_r. now destruct st.
  - cbn [forallb] in Hnames. apply andb_true_iff in Hnames.
    destruct Hnames as [Hname Hnames].
    cbn [foldM_range].
    rewrite (result_bind_done _ _ _ (entityStep_typed _ longDescription modelName
                                       i name st Htypes Hname)).
    rewrite IH by exact Hnames. cbn [compCount relCount].
    unfold countFrom, enumerate_from. cbn [List.length seq combine filter fst].
    f_equal. f_equal.
    + destruct (countedIndex entityTypes modelName (i, name)
                && String.eqb (typeAt entityTypes i) "component");
        cbn [bump List.length]; lia.
    + destruct (countedIndex entityTypes modelName (i, name)
                && String.eqb (typeAt entityTypes i) "relationship");
        cbn [bump List.length]; lia.
Qed.

(** C5: on the record of the example, under the model name "m1", one
    line is logged for the entry of type "Unknown" and the combined line
    says "1 entity of type component and 1 entity of type relationship";
    and on arrays of strings the line returned is the phrase of the two
    counts: "entity" for one and "entities" for more, a part left out when
    its count is zero, and " and" between two parts only. *)
Theorem entity_type_line (names entityTypes : list value)
    (longDescription modelName : string) :
  unsuccessfulEntity "m1" threeEntities
  = ([LogInfo (newline ++ BoldString "ERROR"
               ++ ": Import process for file m1 encountered error: "
               ++ newline ++ "    " ++ TrimSpace "bad file ");
      Println "";
      LogInfo ("  " ++ BoldString "ERROR" ++ ": Import did not occur for"
               ++ " 1 entity of type component and 1 entity of type relationship"
               ++ " error: " ++ newline ++ "  " ++ TrimSpace "bad file ")],
     Done tt)
  /\ (forallb is_string names = true ->
      forallb is_string entityTypes = true ->
      result (buildEntityTypeLine names entityTypes longDescription modelName)
      = Done (summaryPhrase
                (countFrom 0 names entityTypes modelName "component")
                (countFrom 0 names entityTypes modelName "relationship"))).
Proof.
  split; [reflexivity|].
  intros Hnames Htypes. unfold buildEntityTypeLine.
  rewrite (result_bind_done _ _ _ (walk_counts entityTypes longDescription
                                     modelName names 0 _ Htypes Hnames)).
  cbn [ret result snd compCount relCount Nat.add].
  now rewrite entityTypeLineOf_phrase.
Qed.

(** C9: an index of [names] at or past the length of [entityTypes] is
    walked with the empty entity type: when the name is a string the
    iteration logs nothing and changes no counter, the walk never stops on
    an index out of range, and when all names are strings the whole call
    is the one on the names cut at the length of [entityTypes]. *)
Theorem entity_types_shorter_than_names (names entityTypes : list value)
    (longDescription modelName : string) :
  (forall (i : nat) (name : value) (st : counters),
      List.length entityTypes <= i ->
      is_string name = true ->
      entityStep entityTypes longDescription modelName i name st = ret st)
  /\ in_bounds (buildEntityTypeLine names entityTypes longDescription modelName)
  /\ (forallb is_string names = true ->
      buildEntityTypeLine names entityTypes longDescription modelName
      = buildEntityTypeLine (firstn (List.length entityTypes) names)
          entityTypes longDescription modelName).
Proof.
  split; [intros i name st; apply entityStep_past_end|]. split.
  - unfold buildEntityTypeLine. apply in_bounds_bind.
    + apply in_bounds_foldM_range. intros j x s'. apply in_bounds_entityStep.
    + intros st. apply in_bounds_ret.
  - intros Hnames. unfold buildEntityTypeLine.
    rewrite <- (firstn_skipn (List.length entityTypes) names) at 1.
    rewrite foldM_range_app, bind_assoc. apply bind_ext. intros st.
    rewrite foldM_range_idle; [reflexivity|].
    intros j x s' Hj Hx. apply entityStep_past_end.
    + cbn [Nat.add] in Hj.
      destruct (Nat.le_ge_cases (List.length entityTypes) (List.length names))
        as [Hle | Hge].
      * rewrite firstn_length_le in Hj by exact Hle. exact Hj.
      * rewrite skipn_all2 in Hx by exact Hge. destruct Hx.
    + rewrite forallb_forall in Hnames. apply Hnames.
      rewrite <- (firstn_skipn (List.length entityTypes) names).
      apply in_or_app. now right.
Qed.

(** Within one pass, a record whose "error" field is missing or is not an
    object logs one error and nothing else, and the loop goes on with the
    records after it. *)
Theorem bad_error_field_skipped (r : models_RegistryAPIResponse)
    (modelName : string) (before after : list value) (entity : value) :
  UnsuccessfulEntityNameWithError (EntityTypeSummary r)
  = (before ++ entity :: after)%list ->
  as_map (errorField entity) = None ->
  exists err,
    unsuccessfulEntity modelName entity = emit (LogError err)
    /\ displayUnsuccessfulEntities r modelName
       = (displayUnsuccessfulEntities (withFailed before r) modelName ;;;
          emit (LogError err) ;;;
          displayUnsuccessfulEntities (withFailed after r) modelName).
Proof.
  intros Hlist Herror.
  assert (Hone : exists err, unsuccessfulEntity modelName entity = emit (LogError err)).
  { unfold unsuccessfulEntity, Cast_map, Cast_slice.
    unfold errorField, map_or_zero in Herror.
    destruct (as_map entity) as [entityMap|]; [|eauto].
    destruct (as_slice (lookup entityMap "name")); [|eauto].
    destruct (as_slice (lookup entityMap "entityType")); [|eauto].
    rewrite Herror. eauto. }
  destruct Hone as [err Hone]. exists err. split; [exact Hone|].
  assert (Hloop : forall r' l,
             UnsuccessfulEntityNameWithError (EntityTypeSummary r') = l ->
             displayUnsuccessfulEntities r' modelName
             = forM_ l (unsuccessfulEntity modelName)).
  { intros r' l Hl. unfold displayUnsuccessfulEntities. rewrite Hl.
    destruct l; reflexivity. }
  rewrite (Hloop r _ Hlist), (Hloop (withFailed before r) before eq_refl),
          (Hloop (withFailed after r) after eq_refl), forM__app.
  cbn [forM_]. now rewrite Hone.
Qed.

End Unsuccessful.



Lemma entity_type_line_witness :
  result (buildEntityTypeLine
            [VStr "m1"; VStr "m2"; VStr "m1"; VStr "m1"; VStr "m1"]
            [VStr "component"; VStr "component"; VStr "relationship";
             VStr "component"]
            "bad file" "m1")
  = Done " 2 entities of type component and 1 entity of type relationship".
Proof.
  apply (proj2 (entity_type_line
                  [VStr "m1"; VStr "m2"; VStr "m1"; VStr "m1"; VStr "m1"]
                  [VStr "component"; VStr "component"; VStr "relationship";
                   VStr "component"]
                  "bad file" "m1")); reflexivity.
Defined.

Lemma entity_types_shorter_than_names_witness :
  entityStep [VStr "component"] "bad file" "m1" 1 (VStr "m1")
    {| compCount := 1; relCount := 0 |}
  = ret {| compCount := 1; relCount := 0 |}.
Proof.
  apply (proj1 (entity_types_shorter_than_names
                  [VStr "m1"; VStr "m1"] [VStr "component"] "bad file" "m1"));
    [cbn; lia | reflexivity].
Defined.

Lemma bad_error_field_skipped_witness :
  exists err,
    unsuccessfulEntity "m1" noErrorField = emit (LogError err)
    /\ displayUnsuccessfulEntities
         (mkReply "rejected" ["m1"] (mkCounts 0 0 3) [] []
            [threeEntities; noErrorField; threeEntities])
         "m1"
       = (unsuccessfulEntity "m1" threeEntities ;;;
          emit (LogError err) ;;;
          unsuccessfulEntity "m1" threeEntities).
Proof.
  destruct (bad_error_field_skipped
              (mkReply "rejected" ["m1"] (mkCounts 0 0 3) [] []
                 [threeEntities; noErrorField; threeEntities])
              "m1" [threeEntities] [threeEntities] noErrorField
              eq_refl eq_refl) as (err & Hone & Hall).
  exists err. split; [exact Hone|]. rewrite Hall. reflexivity.
Defined.

(** ** The command: what is submitted *)

Section Submission.

Context {H : Host} {E : Externals}.




Lemma RunE_path (location : string) (args : list string) (path : string) :
  inputPath location args = Some path ->
  RunE location args
  = match payloadOf path with
    | inr err => ret (Some err)
    | inl (tarData, fileName) =>
        err <- registerModel tarData fileName "file" ;;
        match err with
        | Some err => emit (Console (LogError err)) ;;; ret (Some err)
        | None => ret None
        end
    end.
Proof.
  unfold inputPath, RunE, index. intros Hpath.
  destruct (negb (String.eqb location "")).
  - injection Hpath as ->. now rewrite bind_ret_l.
  - rewrite Hpath. now rewrite bind_ret_l.
Qed.



End Submission.


Example RunE_file :
  RunE "/tmp/models/model.yaml" []
  = ([HttpPost "http://localhost:9081/api/meshmodels/register"
        (fileUpload fileBytes "model.yaml")], Done None).
Proof. reflexivity. Qed.

Example RunE_directory :
  RunE "" ["/tmp/models"]
  = ([HttpPost "http://localhost:9081/api/meshmodels/register"
        (fileUpload fileBytes "models.tar.gz")], Done None).
Proof. reflexivity. Qed.

(** ** The specification's examples, run on a plain terminal *)

Example partition_order :
  events (displayEntities
            (mkReply "imported" ["model-a"; "file.yaml"; "model-b"]
               (mkCounts 1 0 0)
               [[("DisplayName", VStr "Pod");
                 ("Model", VMap [("name", VStr "file.yaml");
                                 ("category", VMap [("name", VStr "Core")]);
                                 ("model", VMap [("version", VStr "v1")])])]]
               [] []))
  = [LogInfo "SUMMARY: imported";
     modelHeader "model-a";
     modelHeader "model-b";
     Println "";
     PrintToTable ["Component"; "Category"; "Version"] [["Pod"; "Core"; "v1"]]].
Proof. reflexivity. Qed.

Example tar_gz_is_headed :
  events (displayEntities
            (mkReply "imported" ["bundle.tar.gz"] (mkCounts 1 0 0) [] [] []))
  = [LogInfo "SUMMARY: imported"; modelHeader "bundle.tar.gz"].
Proof. reflexivity. Qed.

Example duplicate_relationship :
  events (displaySuccessfulRelationships
            (mkReply "imported" ["m"] (mkCounts 0 2 0) []
               [mkRelationship "edge" "binding" "m" "Role" "RoleBinding" [];
                mkRelationship "edge" "binding" "m" "Role" "RoleBinding"
                  [("Version", VStr "v2")]] [])
            "m")
  = [Println "";
     LogInfo "  RELATIONSHIP: Kind of edge and sub type binding";
     PrintToTable ["From"; "To"] [["Role"; "RoleBinding"]]].
Proof. reflexivity. Qed.

Example malformed_then_valid :
  displayUnsuccessfulEntities
    (mkReply "rejected" ["m1"] (mkCounts 0 0 2) [] []
       [noErrorField; threeEntities])
    "m1"
  = ([LogError (ErrTypeCast VNil TMap);
      LogInfo (newline ++ "ERROR: Import process for file m1 encountered error: "
               ++ newline ++ "    bad file");
      Println "";
      LogInfo ("  ERROR: Import did not occur for 1 entity of type component"
               ++ " and 1 entity of type relationship error: "
               ++ newline ++ "  bad file")],
     Done tt).
Proof. reflexivity. Qed.

(** * Further properties of the code *)

(** ** Strings *)

Lemma append_assoc (a b c : string) : (a ++ b) ++ c = a ++ (b ++ c).
Proof. induction a as [|x a IH]; cbn; [reflexivity | now rewrite IH]. Qed.

Lemma append_nil_r (s : string) : s ++ "" = s.
Proof. induction s as [|c s IH]; cbn; [reflexivity | now rewrite IH]. Qed.

Lemma append_is_empty (a b : string) : a ++ b = "" -> a = "" /\ b = "".
Proof. destruct a; cbn; [now split | discriminate]. Qed.

(** ** [Args]: what reaches [RunE] *)

(** What [Args] lets through: the flag, possibly beside one argument, or
    one argument alone. *)
Lemma Args_accepts_path (location : string) (args : list string) :
  Args location args = None ->
  exists path,
    inputPath location args = Some path
    /\ (location <> "" -> path = location /\ List.length args <= 1)
    /\ (location = "" -> args = [path]).
Proof.
  unfold Args, inputPath. cbv zeta.
  destruct (String.eqb_spec location "") as [-> | Hloc]; cbn [negb andb].
  - destruct args as [|path [|second rest]]; cbn; try discriminate.
    intros _. exists path. repeat split; [congruence..].
  - destruct (Nat.ltb_spec 1 (List.length args)); [discriminate|].
    intros _. exists location. repeat split; [lia | congruence].
Qed.

(** [Args] rejects exactly two shapes of input: neither flag nor
    argument, and more than one argument. *)
Lemma Args_rejects (location : string) (args : list string) :
  Args location args <> None
  <-> (location = "" /\ args = []) \/ 1 < List.length args.
Proof.
  unfold Args. cbv zeta.
  destruct (String.eqb_spec location "") as [-> | Hloc]; cbn [andb].
  - destruct args as [|path [|second rest]]; cbn.
    + split; [now left | discriminate].
    + split; [intros Hn; now contradiction Hn | intros [[_ Hn] | Hn]; [discriminate | lia]].
    + split; [intros _; right; lia | discriminate].
  - destruct (Nat.ltb_spec 1 (List.length args)) as [Hlt | Hle].
    + split; [now right | discriminate].
    + split; [intros Hn; now contradiction Hn | intros [[Hn _] | Hn]; [contradiction | lia]].
Qed.

(** ** [ModelNames] *)

Section Names.

Lemma firstSeen_fresh (seen l : list string) (x : string) :
  In x (firstSeen seen l) -> seen_has seen x = false.
Proof.
  revert seen. induction l as [|y l IH]; intros seen; cbn [firstSeen]; [intros []|].
  destruct (seen_has seen y) eqn:Hy; [apply IH|].
  intros [<- | Hin]; [exact Hy|].
  specialize (IH _ Hin). unfold seen_has in *. cbn [existsb] in IH.
  now apply orb_false_elim in IH.
Qed.

Lemma firstSeen_NoDup (seen l : list string) : NoDup (firstSeen seen l).
Proof.
  revert seen. induction l as [|y l IH]; intros seen; cbn [firstSeen]; [constructor|].
  destruct (seen_has seen y); [apply IH|].
  constructor; [|apply IH].
  intros Hin. apply firstSeen_fresh in Hin.
  unfold seen_has in Hin. cbn [existsb] in Hin. now rewrite String.eqb_refl in Hin.
Qed.

Lemma seen_has_In (seen : list string) (x : string) :
  seen_has seen x = true <-> In x seen.
Proof.
  unfold seen_has. rewrite existsb_exists. split.
  - intros (y & Hy & Heq). apply String.eqb_eq in Heq. now subst.
  - intros Hin. exists x. split; [exact Hin | apply String.eqb_refl].
Qed.

Lemma firstSeen_In (seen l : list string) (x : string) :
  In x (firstSeen seen l) <-> In x l /\ ~ In x seen.
Proof.
  revert seen. induction l as [|y l IH]; intros seen; cbn [firstSeen].
  - split; [intros [] | intros [[] _]].
  - destruct (seen_has seen y) eqn:Hy.
    + rewrite IH. apply seen_has_In in Hy. split.
      * intros [Hin Hn]. split; [now right | exact Hn].
      * intros [[<- | Hin] Hn]; [contradiction | now split].
    + assert (Hny : ~ In y seen).
      { intros Hin. apply seen_has_In in Hin. congruence. }
      cbn [In]. rewrite IH. cbn [In]. split.
      * intros [<- | [Hin Hn]]; [split; [now left | exact Hny]|].
        split; [now right | tauto].
      * intros [[<- | Hin] Hn]; [now left|].
        destruct (String.eqb_spec y x) as [-> | Hne]; [now left | right].
        split; [exact Hin | intros [Heq | Hs]; [contradiction | contradiction]].
Qed.

Lemma modelNames_from (names : list string) (st : namesState) :
  builder (fold_left modelNamesStep names st)
  = match firstSeen (seenNames st) (filter named names) with
    | [] => builder st
    | l => match builder st with
           | EmptyString => String.concat ", " l
           | _ => builder st ++ ", " ++ String.concat ", " l
           end
    end.
Proof.
  revert st. induction names as [|x names IH]; intros st; [reflexivity|].
  cbn [fold_left filter]. unfold modelNamesStep at 2, named at 1.
  destruct (String.eqb_spec x "") as [-> | Hx]; cbn [negb]; [apply IH|].
  cbn [firstSeen]. destruct (seen_has (seenNames st) x); cbn [negb]; [apply IH|].
  rewrite IH. cbn [builder seenNames].
  assert (Hwritten :
            (if Nat.ltb 0 (String.length (builder st))
             then builder st ++ ", " else builder st) ++ x
            = match builder st with
              | EmptyString => x
              | _ => builder st ++ ", " ++ x
              end).
  { destruct (builder st); cbn; [reflexivity|]. now rewrite append_assoc. }
  rewrite Hwritten.
  destruct (firstSeen (x :: seenNames st) (filter named names)) as [|y l].
  - now destruct (builder st).
  - cbn [String.concat].
    destruct (builder st) as [|c b].
    + destruct x as [|cx x']; [contradiction | reflexivity].
    + cbn [append]. now rewrite !append_assoc.
Qed.

(** X2: [ModelNames] lists the model names that are not empty, each once,
    at its first occurrence, separated by ", ". *)
Theorem ModelNames_distinct (response : models_RegistryAPIResponse) :
  ModelNames response
  = String.concat ", " (firstSeen [] (filter named (ModelName response)))
  /\ NoDup (firstSeen [] (filter named (ModelName response)))
  /\ (forall name,
        In name (firstSeen [] (filter named (ModelName response)))
        <-> In name (ModelName response) /\ name <> "").
Proof.
  split; [|split].
  - unfold ModelNames. rewrite modelNames_from. cbn [builder seenNames].
    now destruct (firstSeen [] _).
  - apply firstSeen_NoDup.
  - intros name. rewrite firstSeen_In, filter_In. unfold named.
    rewrite negb_true_iff, String.eqb_neq. cbn [In]. tauto.
Qed.

End Names.

Example ModelNames_example :
  ModelNames (mkReply "imported" ["a"; ""; "b.yaml"; "a"; "c"] (mkCounts 1 0 0) [] [] [])
  = "a, b.yaml, c".
Proof. reflexivity. Qed.

(** ** The command: errors and the one request *)

Section CommandErrors.

Context {H : Host} {E : Externals}.

(** X1: arguments that [Args] accepts give [RunE] a path, so that
    [args[0]] is never read out of range: the run is the one on that path
    alone, which is the flag when it is set, even beside a positional
    argument, and otherwise the only argument. *)
Theorem Args_then_RunE (location : string) (args : list string) :
  Args location args = None ->
  exists path,
    RunE location args = RunE "" [path]
    /\ (location <> "" -> path = location)
    /\ (location = "" -> args = [path]).
Proof.
  intros Hargs. destruct (Args_accepts_path _ _ Hargs) as (path & Hpath & Hflag & Hpos).
  exists path. split; [|split].
  - rewrite (RunE_path _ _ _ Hpath). symmetry. now apply RunE_path.
  - intros Hloc. now apply Hflag.
  - exact Hpos.
Qed.

(** X3: an input error ends the run before anything is sent or printed:
    a path that cannot be examined, a file that cannot be read and a
    directory that cannot be archived each return their error with an
    empty trace, and the error is not logged. *)
Theorem input_errors_stop_early (location : string) (args : list string)
    (path : string) :
  inputPath location args = Some path ->
  (forall err, os_Stat path = inr err ->
               RunE location args = ret (Some (ErrCouldNotAccess err)))
  /\ (forall err, os_Stat path = inl false -> os_ReadFile path = inr err ->
                  RunE location args = ret (Some (ErrCouldNotRead err)))
  /\ (forall err, os_Stat path = inl true -> compressDirectory path = inr err ->
                  RunE location args = ret (Some err)).
Proof.
  intros Hpath. rewrite (RunE_path _ _ _ Hpath). unfold payloadOf.
  repeat split; intros err.
  - now intros ->.
  - now intros -> ->.
  - now intros -> ->.
Qed.

(** The trace of [registerModel] is empty, or the request followed by
    console output. *)
Lemma registerModel_shape (data : list Byte.byte) (name dataType : string) :
  events (registerModel data name dataType) = []
  \/ exists url body console,
       events (registerModel data name dataType)
       = HttpPost url body :: map Console console.
Proof.
  unfold registerModel.
  destruct config_GetMesheryCtl as [baseURL | err]; [|now left].
  destruct (utils_NewRequest _ _); [now left|].
  right. rewrite bind_emit. cbn [events fst].
  eexists _, _.
  destruct (utils_MakeRequest _ _) as [resp | err]; [|now exists []].
  destruct (negb (Nat.eqb (StatusCode resp) 200)); [now exists []|].
  destruct (Body resp) as [bodyBytes | err]; [|now exists []].
  destruct (meshkitutils_Unmarshal bodyBytes) as [response | err]; [|now exists []].
  exists (events (displayEntities response)).
  destruct (displayEntities response) as [o [[] | p]]; cbn; now rewrite ?app_nil_r.
Qed.

Lemma count_posts_console (console : list event) :
  List.length (filter isPost (map Console console)) = 0.
Proof. induction console as [|e l IH]; [reflexivity | exact IH]. Qed.

(** X4: a run sends at most one request. *)
Theorem at_most_one_post (location : string) (args : list string) :
  List.length (filter isPost (events (RunE location args))) <= 1.
Proof.
  destruct (inputPath location args) as [path|] eqn:Hpath.
  - rewrite (RunE_path _ _ _ Hpath).
    destruct (payloadOf path) as [[tarData fileName] | err]; [|cbn; lia].
    destruct (registerModel_shape tarData fileName "file")
      as [Hnone | (url & body & console & Hsome)].
    + destruct (registerModel tarData fileName "file") as [o [[err|] | p]];
        cbn in Hnone; subst o; cbn; lia.
    + destruct (registerModel tarData fileName "file") as [o [[err|] | p]];
        cbn in Hsome; subst o; cbn;
        rewrite ?filter_app, ?length_app, count_posts_console; cbn; lia.
  - unfold inputPath in Hpath. unfold RunE, index.
    destruct (negb (String.eqb location "")); [discriminate|].
    rewrite Hpath. cbn. lia.
Qed.

(** X5: when [registerModel] returns an error it has printed nothing: its
    trace is empty or is the request alone.  In particular the reply of a
    request answered with a status other than 200 is never displayed. *)
Theorem registerModel_error_is_quiet (data : list Byte.byte)
    (name dataType : string) (err : goerror) :
  result (registerModel data name dataType) = Done (Some err) ->
  events (registerModel data name dataType) = []
  \/ exists url body, events (registerModel data name dataType) = [HttpPost url body].
Proof.
  unfold registerModel.
  destruct config_GetMesheryCtl as [baseURL | e0]; [|now left].
  destruct (utils_NewRequest _ _); [now left|].
  rewrite bind_emit. cbn [events result fst snd]. intros Hres. right.
  eexists _, _. f_equal. revert Hres.
  destruct (utils_MakeRequest _ _) as [resp | e1]; [|reflexivity].
  destruct (negb (Nat.eqb (StatusCode resp) 200)); [reflexivity|].
  destruct (Body resp) as [bodyBytes | e2]; [|reflexivity].
  destruct (meshkitutils_Unmarshal bodyBytes) as [response | e3]; [|reflexivity].
  destruct (displayEntities response) as [o [[] | p]]; cbn; discriminate.
Qed.

(** X6: only the status 200 is a success: under any other status, another
    2xx included, the request has been sent, the body is not read, nothing
    is printed and the error carries the method of the request the
    response answers, and the URL. *)
Theorem other_status_is_an_error (data : list Byte.byte)
    (name dataType baseURL : string) (resp : http_response) :
  config_GetMesheryCtl = inl baseURL ->
  utils_NewRequest (baseURL ++ "/api/meshmodels/register")
    {| ImportBody := {| ModelFile := data; URL := ""; FileName := name |};
       UploadType := dataType |} = None ->
  utils_MakeRequest (baseURL ++ "/api/meshmodels/register")
    {| ImportBody := {| ModelFile := data; URL := ""; FileName := name |};
       UploadType := dataType |} = inl resp ->
  StatusCode resp <> 200 ->
  registerModel data name dataType
  = ([HttpPost (baseURL ++ "/api/meshmodels/register")
        {| ImportBody := {| ModelFile := data; URL := ""; FileName := name |};
           UploadType := dataType |}],
     Done (Some (ErrDoRequest (Method (Request resp))
                   (baseURL ++ "/api/meshmodels/register")))).
Proof.
  intros Hcfg Hreq Hmake Hstatus. unfold registerModel.
  rewrite Hcfg. cbv zeta. rewrite Hreq, Hmake.
  apply Nat.eqb_neq in Hstatus. rewrite Hstatus. reflexivity.
Qed.

(** X7: an error of [registerModel] is logged once, after whatever the
    call has sent, and returned. *)
Theorem register_error_is_logged (location : string) (args : list string)
    (path : string) (data : list Byte.byte) (name : string) (err : goerror) :
  inputPath location args = Some path ->
  payloadOf path = inl (data, name) ->
  result (registerModel data name "file") = Done (Some err) ->
  RunE location args
  = ((events (registerModel data name "file") ++ [Console (LogError err)])%list,
     Done (Some err)).
Proof.
  intros Hpath Hpayload Hres. rewrite (RunE_path _ _ _ Hpath), Hpayload.
  destruct (registerModel data name "file") as [o r]. cbn in Hres. subst r.
  reflexivity.
Qed.

(** *** [compressDirectory] *)

Lemma walk_app (dirpath : string) (tw : list Byte.byte)
    (before after : list (string * bool * option goerror)) :
  walk dirpath tw (before ++ after)
  = match walk dirpath tw before with
    | inr err => inr err
    | inl tw' => walk dirpath tw' after
    end.
Proof.
  revert tw. induction before as [|entry before IH]; intros tw; [reflexivity|].
  cbn [app walk]. destruct (walkFn dirpath tw entry); [apply IH | reflexivity].
Qed.

(** X8: directories are not archived: the walk ends as it does on the
    files and on the entries it reports an error for. *)
Theorem walk_skips_directories (dirpath : string) (tw : list Byte.byte)
    (entries : list (string * bool * option goerror)) :
  walk dirpath tw entries = walk dirpath tw (filter walkedInto entries).
Proof.
  revert tw. induction entries as [|[[path isDir] err] entries IH]; intros tw;
    [reflexivity|].
  cbn [filter walkedInto]. destruct isDir, err as [e|]; cbn [negb orb walk walkFn].
  - reflexivity.
  - apply IH.
  - reflexivity.
  - destruct (negb (os_Open path)); [reflexivity|].
    destruct (io_ReadAll path); [|reflexivity].
    destruct (filepath_Rel _ _); [|reflexivity].
    destruct (tw_Compress _ _ _); [apply IH | reflexivity].
Qed.

(** X9: the first entry that fails ends the archive: no bytes are
    returned, the later entries are not visited and nothing is
    compressed. *)
Theorem compressDirectory_aborts (dirpath : string) (tw : list Byte.byte)
    (before after : list (string * bool * option goerror))
    (entry : string * bool * option goerror) (err : goerror) :
  filepath_Walk dirpath = (before ++ entry :: after)%list ->
  walk dirpath [] before = inl tw ->
  walkFn dirpath tw entry = inr err ->
  compressDirectory dirpath = inr err.
Proof.
  intros Hwalk Hbefore Hentry. unfold compressDirectory.
  rewrite Hwalk, walk_app, Hbefore. cbn [walk]. now rewrite Hentry.
Qed.

End CommandErrors.

Lemma Args_then_RunE_witness :
  exists path,
    RunE "/tmp/models" ["ignored.yaml"] = RunE "" [path]
    /\ ("/tmp/models" <> "" -> path = "/tmp/models")
    /\ ("/tmp/models" = "" -> ["ignored.yaml"] = [path]).
Proof.
  apply (@Args_then_RunE sampleHost plainTerminal "/tmp/models" ["ignored.yaml"]).
  reflexivity.
Defined.

Lemma input_errors_stop_early_witness :
  RunE "/nowhere" []
  = ret (Some (ErrCouldNotAccess (ErrHost "no such file or directory"))).
Proof.
  destruct (@input_errors_stop_early sampleHost plainTerminal
              "/nowhere" [] "/nowhere" eq_refl) as [Hstat _].
  apply Hstat. reflexivity.
Defined.

Lemma registerModel_error_is_quiet_witness :
  events (registerModel (H := brokenHost) fileBytes "model.yaml" "file") = []
  \/ exists url body,
       events (registerModel (H := brokenHost) fileBytes "model.yaml" "file")
       = [HttpPost url body].
Proof.
  apply (@registerModel_error_is_quiet brokenHost plainTerminal
           fileBytes "model.yaml" "file"
           (ErrDoRequest "POST" "http://localhost:9081/api/meshmodels/register")).
  reflexivity.
Defined.

Lemma other_status_is_an_error_witness :
  registerModel (H := brokenHost) fileBytes "model.yaml" "file"
  = ([HttpPost "http://localhost:9081/api/meshmodels/register"
        (fileUpload fileBytes "model.yaml")],
     Done (Some (ErrDoRequest "POST"
                   "http://localhost:9081/api/meshmodels/register"))).
Proof.
  apply (@other_status_is_an_error brokenHost plainTerminal
           fileBytes "model.yaml" "file" "http://localhost:9081"
           {| StatusCode := 201; Request := {| Method := "POST" |}; Body := inl [] |});
    [reflexivity | reflexivity | reflexivity | discriminate].
Defined.

Lemma register_error_is_logged_witness :
  RunE (H := brokenHost) "/tmp/models/model.yaml" []
  = ([HttpPost "http://localhost:9081/api/meshmodels/register"
        (fileUpload fileBytes "model.yaml");
      Console (LogError (ErrDoRequest "POST"
                           "http://localhost:9081/api/meshmodels/register"))],
     Done (Some (ErrDoRequest "POST"
                   "http://localhost:9081/api/meshmodels/register"))).
Proof.
  apply (@register_error_is_logged brokenHost plainTerminal
           "/tmp/models/model.yaml" [] "/tmp/models/model.yaml"
           fileBytes "model.yaml"
           (ErrDoRequest "POST" "http://localhost:9081/api/meshmodels/register"));
    reflexivity.
Defined.

Lemma compressDirectory_aborts_witness :
  compressDirectory (H := brokenHost) "/tmp/models"
  = inr (ErrFileWalkDir (ErrHost "permission denied") "/tmp/models/locked").
Proof.
  apply (@compressDirectory_aborts brokenHost "/tmp/models" fileBytes
           [("/tmp/models", true, None); ("/tmp/models/model.yaml", false, None)]
           [("/tmp/models/other.yaml", false, None)]
           ("/tmp/models/locked", false, Some (ErrHost "permission denied")));
    reflexivity.
Defined.

(** ** The report: the summary line and the components table *)

Section Components.

Context {E : Externals}.

(** X10: the summary line opens the report exactly when the short circuit
    does not fire, that is when the reply names no model or one of its
    three counts is not zero. *)
Theorem summary_comes_first (r : models_RegistryAPIResponse) :
  (ModelName r = []
   \/ CompCount (EntityCount r) <> 0%Z
   \/ RelCount (EntityCount r) <> 0%Z
   \/ TotalErrCount (EntityCount r) <> 0%Z)
  <-> exists rest,
        events (displayEntities r)
        = LogInfo (BoldString "SUMMARY" ++ ": " ++ ErrMsg r) :: rest.
Proof.
  unfold displayEntities, displayEmtpyModel, displaySummary. cbv zeta.
  destruct (ModelName r) as [|name names] eqn:Hnames; cbn [List.length Nat.eqb negb andb].
  - rewrite bind_emit. split; [intros _; eexists; reflexivity | intros _; now left].
  - destruct (Z.eqb_spec (CompCount (EntityCount r)) 0) as [Hc | Hc]; cbn [andb].
    + destruct (Z.eqb_spec (RelCount (EntityCount r)) 0) as [Hr | Hr]; cbn [andb].
      * destruct (Z.eqb_spec (TotalErrCount (EntityCount r)) 0) as [He | He]; cbn [negb].
        -- split.
           ++ intros [Hn | [Hn | [Hn | Hn]]]; [discriminate | contradiction ..].
           ++ intros [rest Hrest]. discriminate.
        -- rewrite bind_emit.
           split; [intros _; eexists; reflexivity | intros _; now do 3 right].
      * rewrite bind_emit.
        split; [intros _; eexists; reflexivity | intros _; right; right; now left].
    + rewrite bind_emit.
      split; [intros _; eexists; reflexivity | intros _; right; now left].
Qed.

(** X11: a reply that names no model is reported by its summary line
    alone, whatever its lists hold; no record is looked at. *)
Theorem no_model_names (r : models_RegistryAPIResponse) :
  ModelName r = [] ->
  displayEntities r
  = ([LogInfo (BoldString "SUMMARY" ++ ": " ++ ErrMsg r)], Done tt).
Proof.
  intros Hnames. unfold displayEntities, displayEmtpyModel, displayEntitisIfModel.
  rewrite Hnames. reflexivity.
Qed.

Lemma componentRow_wellFormed (modelName : string) (rows : list (list string))
    (comp : gomap) :
  componentWellFormed comp = true ->
  componentRow modelName rows comp
  = ret (if componentOf modelName comp
         then (rows ++ [componentRowOf comp])%list else rows).
Proof.
  unfold componentWellFormed, componentRow, componentOf, componentRowOf. cbv zeta.
  intros Hwf. apply andb_true_iff in Hwf. destruct Hwf as [Hcat Hmod].
  destruct (lookup (map_or_zero (lookup comp "Model")) "category");
    try discriminate.
  destruct (lookup (map_or_zero (lookup comp "Model")) "model");
    try discriminate.
  cbn. now destruct (String.eqb _ modelName).
Qed.

Lemma componentRow_malformed (modelName : string) (rows : list (list string))
    (comp : gomap) :
  componentWellFormed comp = false ->
  exists v, componentRow modelName rows comp = panic (TypeAssertion v TMap).
Proof.
  unfold componentWellFormed, componentRow. cbv zeta.
  intros Hwf. apply andb_false_iff in Hwf.
  destruct (lookup (map_or_zero (lookup comp "Model")) "category") as [| | | | |c] eqn:Hc;
    try (eexists; reflexivity).
  destruct Hwf as [Hwf | Hwf]; [discriminate|].
  destruct (lookup (map_or_zero (lookup comp "Model")) "model") as [| | | | |m] eqn:Hm;
    try discriminate; eexists; reflexivity.
Qed.

Lemma components_fold (modelName : string) (comps : list gomap)
    (rows : list (list string)) :
  forallb componentWellFormed comps = true ->
  foldM comps rows (componentRow modelName)
  = ret (Ev := event)
        (rows ++ map componentRowOf (filter (componentOf modelName) comps))%list.
Proof.
  revert rows. induction comps as [|comp comps IH]; intros rows Hwf.
  - cbn. now rewrite app_nil_r.
  - cbn [forallb] in Hwf. apply andb_true_iff in Hwf. destruct Hwf as [Hcomp Hwf].
    cbn [foldM filter]. rewrite (componentRow_wellFormed _ _ _ Hcomp), bind_ret_l.
    rewrite (IH _ Hwf). destruct (componentOf modelName comp); [|reflexivity].
    cbn [map]. now rewrite <- app_assoc.
Qed.

(** X12: when every component record has its "category" and "model"
    objects, the pass cannot panic, and its table holds one row for each
    record of the model, in the order of the reply; without such a record
    nothing is printed, not even the blank line. *)
Theorem components_table (r : models_RegistryAPIResponse) (modelName : string) :
  forallb componentWellFormed (SuccessfulComponents (EntityTypeSummary r)) = true ->
  displaySuccessfulComponents r modelName
  = match map componentRowOf
            (filter (componentOf modelName)
                    (SuccessfulComponents (EntityTypeSummary r))) with
    | [] => ret tt
    | rows => ([Println "";
                PrintToTable ["Component"; "Category"; "Version"] rows], Done tt)
    end.
Proof.
  intros Hwf. unfold displaySuccessfulComponents. cbv zeta.
  destruct (SuccessfulComponents (EntityTypeSummary r)) as [|comp comps] eqn:Hcomps;
    [reflexivity|].
  cbn [List.length Nat.ltb Nat.leb]. rewrite (components_fold _ _ _ Hwf), bind_ret_l.
  cbn [app]. now destruct (map componentRowOf _).
Qed.

Lemma components_fold_malformed (modelName : string) (comps : list gomap)
    (rows : list (list string)) :
  forallb componentWellFormed comps = false ->
  exists v,
    foldM comps rows (componentRow modelName)
    = panic (Ev := event) (TypeAssertion v TMap).
Proof.
  revert rows. induction comps as [|comp comps IH]; intros rows Hwf; [discriminate|].
  cbn [forallb] in Hwf. cbn [foldM].
  destruct (componentWellFormed comp) eqn:Hcomp.
  - rewrite (componentRow_wellFormed _ _ _ Hcomp), bind_ret_l. now apply IH.
  - destruct (componentRow_malformed modelName rows comp Hcomp) as [v ->].
    now exists v.
Qed.

(** X13: one component record without a "category" or a "model" object
    makes the pass panic for every model name, the record's own or not,
    before it has printed anything. *)
Theorem components_malformed (r : models_RegistryAPIResponse) (modelName : string) :
  forallb componentWellFormed (SuccessfulComponents (EntityTypeSummary r)) = false ->
  exists v,
    displaySuccessfulComponents r modelName = panic (TypeAssertion v TMap).
Proof.
  intros Hwf. unfold displaySuccessfulComponents. cbv zeta.
  destruct (SuccessfulComponents (EntityTypeSummary r)) as [|comp comps];
    [discriminate|].
  cbn [List.length Nat.ltb Nat.leb].
  destruct (components_fold_malformed modelName _ [] Hwf) as [v ->].
  now exists v.
Qed.

End Components.

(** ** The report: more on the relationship tables *)

Ltac bind_done Hrun x :=
  let Hx := fresh "H" x in
  apply result_bind_inv in Hrun; destruct Hrun as (x & Hx & Hrun).

Section RelationshipTables.

Context {E : Externals}.

Lemma keyed_add (st : relstate) (kind subtype seenKey : string) (row : list string) :
  keyed st ->
  keyed {| seen := seenKey :: seen st;
           relationshipMap :=
             appendRow (relationshipMap st) (kind ++ "-" ++ subtype) row |}.
Proof.
  intros Hinv key rows Hin. cbn [relationshipMap] in Hin.
  apply In_appendRow in Hin.
  destruct Hin as [Hold | (-> & [-> | (rows0 & _ & ->)])].
  - now apply Hinv.
  - split; [now exists kind, subtype | discriminate].
  - split; [now exists kind, subtype | now destruct rows0].
Qed.

Lemma selectorRow_keyed (kind subtype : string) (st st' : relstate)
    (selector : value) :
  result (selectorRow kind subtype st selector) = Done st' ->
  keyed st -> keyed st'.
Proof.
  unfold selectorRow. intros Hrun Hinv.
  bind_done Hrun selectorMap. bind_done Hrun allow.
  bind_done Hrun from. bind_done Hrun to.
  bind_done Hrun from0. bind_done Hrun fromMap.
  bind_done Hrun to0. bind_done Hrun toMap.
  destruct (seen_has (seen st) _); cbn in Hrun; injection Hrun as <-.
  - exact Hinv.
  - now apply keyed_add.
Qed.

Lemma relationshipRows_keyed (model : string) (st st' : relstate) (rel : gomap) :
  result (relationshipRows model st rel) = Done st' ->
  keyed st -> keyed st'.
Proof.
  unfold relationshipRows. intros Hrun Hinv.
  bind_done Hrun kind. bind_done Hrun subtype.
  bind_done Hrun modelMap. bind_done Hrun modelName.
  destruct (negb (String.eqb modelName model)).
  - cbn in Hrun. now injection Hrun as <-.
  - bind_done Hrun selectors.
    apply (foldM_invariant keyed _ _ _ _
             (fun s0 x s1 => selectorRow_keyed kind subtype s0 s1 x) Hrun Hinv).
Qed.

Lemma tables_complete (m : relmap) :
  (forall key rows,
      In (key, rows) m ->
      (exists kind subtype, key = kind ++ "-" ++ subtype) /\ rows <> []) ->
  result (forM_ m relationshipTable) = Done tt.
Proof.
  induction m as [|[key rows] m IH]; intros Hshape; [reflexivity|].
  cbn [forM_].
  destruct (Hshape key rows (or_introl eq_refl)) as [(kind & subtype & ->) Hrows].
  destruct rows as [|row rows]; [contradiction|].
  destruct (relationshipTable_rows kind subtype row rows) as (p0 & p1 & ->).
  rewrite result_bind_done with (a := tt) by reflexivity.
  apply IH. intros k rs Hin. apply Hshape. now right.
Qed.

(** X15: the relationship pass prints its tables only once every record
    has been read: when it panics, it has printed nothing. *)
Theorem relationships_all_or_nothing (r : models_RegistryAPIResponse)
    (model : string) (p : panic_reason) :
  result (displaySuccessfulRelationships r model) = Panicked p ->
  events (displaySuccessfulRelationships r model) = [].
Proof.
  unfold displaySuccessfulRelationships. cbv zeta.
  destruct (Nat.ltb 0 _); [|discriminate].
  pose proof (silent_foldM (SuccessfulRelationships (EntityTypeSummary r))
                {| seen := []; relationshipMap := [] |} _
                (silent_relationshipRows model)) as Hsilent.
  destruct (foldM _ _ (relationshipRows model)) as [o [st | p']] eqn:Hfold.
  - intros Hpanic. exfalso.
    assert (Hkeyed : keyed st).
    { apply (foldM_invariant keyed _ _ _ _
               (fun s0 x s1 => relationshipRows_keyed model s0 s1 x)
               (f_equal snd Hfold)).
      intros key rows []. }
    rewrite result_bind_done with (a := st) in Hpanic by reflexivity.
    rewrite tables_complete in Hpanic; [discriminate|].
    intros key rows Hin. apply (Hkeyed key rows).
    now apply (Permutation_in _ (rangeOrder_perm _)).
  - intros _. exact Hsilent.
Qed.

Lemma relationshipRows_other (model : string) (st : relstate) (rel : gomap) :
  relationshipHeaderTyped rel = true ->
  relationshipOf model rel = false ->
  relationshipRows model st rel = ret st.
Proof.
  unfold relationshipHeaderTyped, relationshipOf, relationshipRows.
  intros Htyped Hother.
  apply andb_true_iff in Htyped. destruct Htyped as [Htyped Hname].
  apply andb_true_iff in Htyped. destruct Htyped as [Htyped Hmodel].
  apply andb_true_iff in Htyped. destruct Htyped as [Hkind Hsubtype].
  destruct (lookup rel "Kind"); try discriminate.
  destruct (lookup rel "Subtype"); try discriminate.
  destruct (lookup rel "Model") as [| | | | |modelMap]; try discriminate.
  cbn in *. destruct (lookup modelMap "name"); try discriminate.
  cbn in *. now rewrite Hother.
Qed.

(** X16: under a model that owns none of the records, the pass prints
    nothing and cannot panic as long as kind, subtype and model name of
    each record can be read: the selectors of other models' records are
    never looked at. *)
Theorem relationships_of_other_models (r : models_RegistryAPIResponse)
    (model : string) :
  forallb relationshipHeaderTyped
          (SuccessfulRelationships (EntityTypeSummary r)) = true ->
  forallb (fun rel => negb (relationshipOf model rel))
          (SuccessfulRelationships (EntityTypeSummary r)) = true ->
  displaySuccessfulRelationships r model = ret tt.
Proof.
  intros Htyped Hother. unfold displaySuccessfulRelationships. cbv zeta.
  destruct (Nat.ltb 0 _); [|reflexivity].
  assert (Hfold : forall st,
             foldM (SuccessfulRelationships (EntityTypeSummary r)) st
                   (relationshipRows model) = ret st).
  { induction (SuccessfulRelationships (EntityTypeSummary r)) as [|rel rels IH];
      intros st; [reflexivity|].
    cbn [forallb] in Htyped, Hother.
    apply andb_true_iff in Htyped, Hother.
    destruct Htyped as [Hrel Htyped], Hother as [Hnot Hother].
    apply negb_true_iff in Hnot.
    cbn [foldM]. rewrite (relationshipRows_other _ _ _ Hrel Hnot), bind_ret_l.
    now apply IH. }
  rewrite Hfold, bind_ret_l. cbn [relationshipMap].
  rewrite (Permutation_nil (Permutation_sym (rangeOrder_perm []))).
  reflexivity.
Qed.

Lemma Split_noDash (s : string) :
  noDash s = true -> Split "-"%char s = [s].
Proof.
  unfold noDash. induction s as [|c s IH]; cbn; [reflexivity|].
  intros Hs. apply andb_true_iff in Hs. destruct Hs as [Hc Hs].
  apply negb_true_iff in Hc. rewrite Hc, (IH Hs). reflexivity.
Qed.

Lemma Split_first (a rest : string) :
  noDash a = true ->
  Split "-"%char (a ++ String "-"%char rest) = a :: Split "-"%char rest.
Proof.
  unfold noDash. induction a as [|c a IH]; cbn; [reflexivity|].
  intros Ha. apply andb_true_iff in Ha. destruct Ha as [Hc Ha].
  apply negb_true_iff in Hc. rewrite Hc, (IH Ha). reflexivity.
Qed.

(** X17: the line above a table names the kind and the subtype when
    neither holds a dash; a dash in the kind moves the rest of the kind
    into the place of the subtype, whose own text is then not shown. *)
Theorem relationship_header (a b subtype : string) (row : list string)
    (rows : list (list string)) :
  noDash a = true ->
  noDash b = true ->
  relationshipTable (a ++ "-" ++ b, row :: rows)
  = ([Println "";
      LogInfo ("  " ++ (if Nat.ltb 1 (List.length (row :: rows))
                        then BoldString "RELATIONSHIPS:"
                        else BoldString "RELATIONSHIP:")
               ++ " Kind of " ++ a ++ " and sub type " ++ b);
      PrintToTable ["From"; "To"] (row :: rows)], Done tt)
  /\ relationshipTable ((a ++ "-" ++ b) ++ "-" ++ subtype, row :: rows)
     = relationshipTable (a ++ "-" ++ b, row :: rows).
Proof.
  intros Ha Hb.
  assert (Hsplit : forall tail,
             Split "-"%char (a ++ "-" ++ b ++ tail)
             = a :: Split "-"%char (b ++ tail)).
  { intros tail. exact (Split_first a (b ++ tail) Ha). }
  split.
  - unfold relationshipTable.
    pose proof (Hsplit "") as Hkey. rewrite append_nil_r in Hkey.
    rewrite Hkey, (Split_noDash b Hb). reflexivity.
  - unfold relationshipTable.
    pose proof (Hsplit "") as Hkey. rewrite append_nil_r in Hkey. rewrite Hkey.
    rewrite append_assoc. cbn [append].
    change (a ++ String "-"%char (b ++ String "-"%char subtype))
      with (a ++ "-" ++ b ++ String "-"%char subtype).
    rewrite Hsplit, (Split_first b subtype Hb), (Split_noDash b Hb).
    reflexivity.
Qed.

End RelationshipTables.

(** ** The report: more on rejected entities *)

Section Rejected.

Context {E : Externals}.

Lemma bind_done {A B} (o : list event) (a : A) (f : A -> M B) :
  bind (o, Done a) f = ((o ++ events (f a))%list, result (f a)).
Proof. unfold bind, events, result. now destruct (f a). Qed.

Lemma description_fold (items : list value) (acc : string) :
  foldM items acc
    (fun longDescription item =>
       match as_string item with
       | None =>
           emit (LogInfo ("Item in LongDescription is not a string: "
                          ++ Sprint_v item ++ " (type "
                          ++ Sprint_T item ++ ")")) ;;;
           ret longDescription
       | Some str => ret (longDescription ++ (str ++ " "))
       end)
  = (map descriptionLog (filter (fun v => negb (is_string v)) items),
     Done (acc ++ spaced (stringsOf items))).
Proof.
  revert acc. induction items as [|item items IH]; intros acc.
  - cbn. now rewrite append_nil_r.
  - cbn [foldM filter stringsOf].
    destruct item as [| b | n | s | l | m]; cbn [as_string is_string negb map];
      try (rewrite bind_assoc, bind_emit, bind_ret_l, IH; reflexivity).
    rewrite bind_ret_l, IH. cbn [spaced].
    now rewrite !append_assoc.
Qed.

(** X18: [buildLongDescription] never panics.  Of an array it returns the
    strings, each followed by a space, trimmed, and logs one line for each
    element that is not a string; of anything else it returns the empty
    string and logs one line. *)
Theorem long_description (v : value) :
  (forall items,
      v = VArr items ->
      buildLongDescription v
      = (map descriptionLog (filter (fun item => negb (is_string item)) items),
         Done (TrimSpace (spaced (stringsOf items)))))
  /\ (as_slice v = None ->
      buildLongDescription v
      = ([LogInfo ("Type assertion to []interface{} failed for LongDescription: "
                   ++ Sprint_v v ++ " (type " ++ Sprint_T v ++ ")")],
         Done ""))
  /\ exists longDescription, result (buildLongDescription v) = Done longDescription.
Proof.
  split; [|split].
  - intros items ->. unfold buildLongDescription. cbn [as_slice].
    rewrite description_fold. cbn. now rewrite app_nil_r.
  - intros Hv. unfold buildLongDescription. now rewrite Hv.
  - unfold buildLongDescription. destruct v; cbn [as_slice]; try (eexists; reflexivity).
    rewrite description_fold. eexists. reflexivity.
Qed.

Lemma long_description_done (v : value) :
  exists longDescription, result (buildLongDescription v) = Done longDescription.
Proof.
  unfold buildLongDescription. destruct v; cbn [as_slice]; try (eexists; reflexivity).
  rewrite description_fold. eexists. reflexivity.
Qed.

Lemma foldM_range_invariant {A St} (P : St -> Prop)
    (body : nat -> A -> St -> M St) (l : list A) (i : nat) (s s' : St) :
  (forall j x s0 s1, result (body j x s0) = Done s1 -> P s0 -> P s1) ->
  result (foldM_range i l s body) = Done s' -> P s -> P s'.
Proof.
  intros Hstep. revert i s. induction l as [|x l IH]; intros i s Hrun Hs.
  - cbn in Hrun. now injection Hrun as <-.
  - cbn [foldM_range] in Hrun. apply result_bind_inv in Hrun.
    destruct Hrun as (s1 & Hx & Hrun). eauto.
Qed.

Lemma entityStep_nameless (entityTypes : list value) (longDescription : string)
    (i : nat) (name : value) (st st' : counters) :
  result (entityStep entityTypes longDescription "" i name st) = Done st' ->
  st' = st.
Proof.
  unfold entityStep. intros Hrun.
  bind_done Hrun entityType. cbn [String.eqb negb] in Hrun.
  rewrite bind_ret_l in Hrun.
  destruct (String.eqb entityType "Unknown"); cbn [negb] in Hrun.
  - bind_done Hrun n. cbn in Hrun. now injection Hrun as <-.
  - cbn in Hrun. now injection Hrun as <-.
Qed.

(** X19: under the empty model name no component and no relationship is
    ever counted, whatever the arrays hold: the line returned is empty, so
    the combined error line is not printed. *)
Theorem nameless_line_is_empty (names entityTypes : list value)
    (longDescription line : string) :
  result (buildEntityTypeLine names entityTypes longDescription "") = Done line ->
  line = "".
Proof.
  unfold buildEntityTypeLine. intros Hrun. bind_done Hrun st.
  cbn in Hrun. injection Hrun as <-.
  rewrite (foldM_range_invariant
             (fun s => s = {| compCount := 0; relCount := 0 |})
             _ _ _ _ _
             (fun j x s0 s1 Hs H0 =>
                eq_trans (entityStep_nameless _ _ _ _ _ _ Hs) H0)
             Hst eq_refl).
  reflexivity.
Qed.

Lemma entityStep_bound (entityTypes : list value)
    (longDescription modelName : string) (i : nat) (name : value)
    (st st' : counters) :
  result (entityStep entityTypes longDescription modelName i name st) = Done st' ->
  compCount st' + relCount st' <= S (compCount st + relCount st).
Proof.
  unfold entityStep. intros Hrun.
  bind_done Hrun entityType. bind_done Hrun skip.
  destruct skip; [cbn in Hrun; injection Hrun as <-; lia|].
  destruct (String.eqb entityType "Unknown").
  - bind_done Hrun n. cbn in Hrun. injection Hrun as <-. lia.
  - destruct (String.eqb entityType "component");
      [cbn in Hrun; injection Hrun as <-; cbn; lia|].
    destruct (String.eqb entityType "relationship");
      cbn in Hrun; injection Hrun as <-; cbn; lia.
Qed.

(** X20: the two counters of the walk together never exceed the number of
    names, so they cannot overflow. *)
Theorem counters_bounded (names entityTypes : list value)
    (longDescription modelName : string) (i : nat) (st st' : counters) :
  result (foldM_range i names st
            (entityStep entityTypes longDescription modelName)) = Done st' ->
  compCount st' + relCount st'
  <= compCount st + relCount st + List.length names.
Proof.
  revert i st. induction names as [|name names IH]; intros i st Hrun.
  - cbn in Hrun. injection Hrun as <-. lia.
  - cbn [foldM_range] in Hrun. apply result_bind_inv in Hrun.
    destruct Hrun as (s1 & Hstep & Hrun).
    apply entityStep_bound in Hstep. apply IH in Hrun. cbn [List.length]. lia.
Qed.

Lemma entityStep_typed_trace (entityTypes : list value)
    (longDescription modelName : string) (i : nat) (name : value)
    (st : counters) :
  forallb is_string entityTypes = true ->
  is_string name = true ->
  events (entityStep entityTypes longDescription modelName i name st)
  = if countedIndex entityTypes modelName (i, name)
       && String.eqb (typeAt entityTypes i) "Unknown"
    then [unknownLine longDescription (i, name)]
    else [].
Proof.
  intros Htypes Hname. unfold entityStep, countedIndex, unknownLine.
  rewrite (entityTypeAt_typed _ _ Htypes), bind_ret_l.
  generalize (typeAt entityTypes i) as ty. intros ty.
  destruct name as [| | |n| |]; try discriminate.
  cbn [string_or_zero as_string snd].
  destruct (String.eqb modelName "") eqn:Hm; cbn [negb].
  - rewrite bind_ret_l.
    destruct (String.eqb ty "Unknown"); reflexivity.
  - cbn [assert_string as_string]. rewrite !bind_ret_l.
    destruct (String.eqb modelName n); cbn [negb andb]; [|reflexivity].
    destruct (String.eqb ty "Unknown"); [reflexivity|].
    destruct (String.eqb ty "component"); [reflexivity|].
    destruct (String.eqb ty "relationship"); reflexivity.
Qed.

Lemma walk_trace (entityTypes : list value) (longDescription modelName : string)
    (names : list value) (i : nat) (st : counters) :
  forallb is_string entityTypes = true ->
  forallb is_string names = true ->
  events (foldM_range i names st
            (entityStep entityTypes longDescription modelName))
  = map (unknownLine longDescription)
        (filter (fun entry : nat * value =>
                   countedIndex entityTypes modelName entry
                   && String.eqb (typeAt entityTypes (fst entry)) "Unknown")
                (enumerate_from i names)).
Proof.
  intros Htypes. revert i st.
  induction names as [|name names IH]; intros i st Hnames; [reflexivity|].
  cbn [forallb] in Hnames. apply andb_true_iff in Hnames.
  destruct Hnames as [Hname Hnames].
  cbn [foldM_range].
  rewrite (events_bind_done _ _ _
             (entityStep_typed _ longDescription modelName i name st Htypes Hname)).
  rewrite (entityStep_typed_trace _ _ _ _ _ _ Htypes Hname), (IH _ _ Hnames).
  unfold enumerate_from. cbn [List.length seq combine filter fst].
  destruct (countedIndex entityTypes modelName (i, name)
            && String.eqb (typeAt entityTypes i) "Unknown"); reflexivity.
Qed.

Lemma summaryPhrase_empty (c r : nat) :
  String.eqb (summaryPhrase c r) "" = Nat.eqb c 0 && Nat.eqb r 0.
Proof.
  unfold summaryPhrase, typePhrase.
  destruct c as [|c], r as [|r]; reflexivity.
Qed.

(** X21: what one well-typed record prints under a model name: first a
    line for each element of the description that is not a string, then a
    line for each counted entry of type "Unknown", in order, then, when a
    component or a relationship was counted, a blank line and the combined
    line with the phrase of the two counts; and the pass over the record
    completes. *)
Theorem rejected_record_trace (modelName : string) (entity : value)
    (entityMap errorDetails : gomap) (names entityTypes items : list value) :
  as_map entity = Some entityMap ->
  as_slice (lookup entityMap "name") = Some names ->
  as_slice (lookup entityMap "entityType") = Some entityTypes ->
  as_map (lookup entityMap "error") = Some errorDetails ->
  lookup errorDetails "LongDescription" = VArr items ->
  forallb is_string names = true ->
  forallb is_string entityTypes = true ->
  unsuccessfulEntity modelName entity
  = ((map descriptionLog (filter (fun item => negb (is_string item)) items)
      ++ map (unknownLine (TrimSpace (spaced (stringsOf items))))
             (unknownEntries names entityTypes modelName)
      ++ (if Nat.eqb (countFrom 0 names entityTypes modelName "component") 0
             && Nat.eqb (countFrom 0 names entityTypes modelName "relationship") 0
          then []
          else [Println "";
                combinedLine
                  (summaryPhrase
                     (countFrom 0 names entityTypes modelName "component")
                     (countFrom 0 names entityTypes modelName "relationship"))
                  (TrimSpace (spaced (stringsOf items)))]))%list,
     Done tt).
Proof.
  intros Hentity Hnames Htypes Herror Hitems Hsn Hst.
  unfold unsuccessfulEntity, Cast_map, Cast_slice.
  rewrite Hentity, Hnames, Htypes, Herror, Hitems.
  unfold buildLongDescription. cbn [as_slice]. rewrite description_fold.
  rewrite bind_assoc, bind_done. cbn beta. cbn [append]. rewrite bind_ret_l.
  set (ld := TrimSpace (spaced (stringsOf items))).
  unfold buildEntityTypeLine.
  pose proof (walk_counts entityTypes ld modelName names 0
                {| compCount := 0; relCount := 0 |} Hst Hsn) as Hres.
  pose proof (walk_trace entityTypes ld modelName names 0
                {| compCount := 0; relCount := 0 |} Hst Hsn) as Hev.
  destruct (foldM_range 0 names _ _) as [o res]. cbn [events result fst snd] in Hres, Hev.
  subst o res. cbn [compCount relCount Nat.add].
  rewrite bind_assoc, bind_done. cbn beta. rewrite bind_ret_l.
  rewrite entityTypeLineOf_phrase. cbn [compCount relCount].
  rewrite summaryPhrase_empty.
  unfold unknownEntries, combinedLine.
  destruct (Nat.eqb _ 0 && Nat.eqb _ 0); reflexivity.
Qed.

Lemma forM__done {A} (l : list A) (f : A -> M unit) :
  (forall x, In x l -> result (f x) = Done tt) ->
  result (forM_ l f) = Done tt.
Proof.
  induction l as [|x l IH]; intros Hall; [reflexivity|].
  cbn [forM_]. rewrite result_bind_done with (a := tt) by (apply Hall; now left).
  apply IH. intros y Hy. apply Hall. now right.
Qed.

(** X22: when the arrays of every complete record hold strings only, the
    pass over the rejected entities completes, whatever else the records
    hold or lack. *)
Theorem rejected_entities_complete (r : models_RegistryAPIResponse)
    (modelName : string) :
  forallb recordTyped (UnsuccessfulEntityNameWithError (EntityTypeSummary r)) = true ->
  result (displayUnsuccessfulEntities r modelName) = Done tt.
Proof.
  intros Htyped. unfold displayUnsuccessfulEntities. cbv zeta.
  destruct (Nat.ltb 0 _); [|reflexivity].
  apply forM__done. intros entity Hin.
  rewrite forallb_forall in Htyped. specialize (Htyped entity Hin).
  unfold recordTyped in Htyped. unfold unsuccessfulEntity, Cast_map, Cast_slice.
  destruct (as_map entity) as [entityMap|]; [|reflexivity].
  destruct (as_slice (lookup entityMap "name")) as [names|]; [|reflexivity].
  destruct (as_slice (lookup entityMap "entityType")) as [entityTypes|]; [|reflexivity].
  destruct (as_map (lookup entityMap "error")) as [errorDetails|]; [|reflexivity].
  apply andb_true_iff in Htyped. destruct Htyped as [Hsn Hst].
  destruct (long_description_done (lookup errorDetails "LongDescription"))
    as [ld Hld].
  rewrite result_bind_done with (a := ld) by exact Hld.
  unfold buildEntityTypeLine.
  pose proof (walk_counts entityTypes ld modelName names 0
                {| compCount := 0; relCount := 0 |} Hst Hsn) as Hres.
  rewrite bind_assoc.
  rewrite result_bind_done with (1 := Hres). rewrite bind_ret_l.
  destruct (negb _); reflexivity.
Qed.

End Rejected.

(** ** The report: names that end in ".tar.gz", and the name of the upload *)

Section FileNames.

Context {H : Host} {E : Externals}.

Lemma bind_ret_tt (m : M unit) : (m ;;; ret tt) = m.
Proof.
  destruct m as [o [[] | p]]; unfold bind, ret; [|reflexivity].
  now rewrite app_nil_r.
Qed.

(** X23: a model name that ends in ".tar.gz" is not taken for a file name:
    [filepath.Ext] gives ".gz" for it, so it is reported under a "MODEL:"
    line like a model name. *)
Theorem tar_gz_is_reported_as_model (r : models_RegistryAPIResponse)
    (name : string) :
  HasSuffix name ".tar.gz" = true ->
  ModelName r = [name] ->
  hasExtension name = false
  /\ displayEntitisIfModel r = (emit (modelHeader name) ;;; modelDetails r name).
Proof.
  intros Hsuffix Hnames.
  assert (Hext : hasExtension name = false) by now apply hasExtension_tar_gz.
  split; [exact Hext|].
  assert (Hnamed : named name = true).
  { destruct name; [discriminate | reflexivity]. }
  unfold displayEntitisIfModel. cbv zeta. rewrite Hnames, classify_filter.
  cbn [filter]. rewrite Hnamed, Hext.
  cbn [negb andb forM_ modelsWithoutExtension modelsWithExtension].
  rewrite !bind_ret_tt. apply displayModelInfo_plain.
Qed.

Lemma Base_is_not_empty (path : string) : Filepath.Base path <> "".
Proof.
  unfold Filepath.Base. destruct path as [|c path]; [discriminate|].
  destruct (Filepath.last_element _ _) as [|x l]; [discriminate|].
  cbn. discriminate.
Qed.

(** X24: the name sent with an upload is never empty, so the field
    [file_name] is never left out of the request. *)
Theorem file_name_is_not_empty (path : string) (data : list Byte.byte)
    (name : string) :
  payloadOf path = inl (data, name) -> name <> "".
Proof.
  unfold payloadOf.
  destruct (os_Stat path) as [[|] | err]; [| |discriminate].
  - destruct (compressDirectory path); [|discriminate].
    intros Heq. injection Heq as _ <-. intros Hempty.
    apply append_is_empty in Hempty. destruct Hempty as [_ Hempty]. discriminate.
  - destruct (os_ReadFile path); [|discriminate].
    intros Heq. injection Heq as _ <-. apply Base_is_not_empty.
Qed.

End FileNames.

(** ** Instances of the properties above *)

Lemma tar_gz_is_reported_as_model_witness :
  hasExtension "bundle.tar.gz" = false
  /\ displayEntitisIfModel
       (mkReply "imported" ["bundle.tar.gz"] (mkCounts 1 0 0) [] [] [])
     = (emit (modelHeader "bundle.tar.gz") ;;;
        modelDetails
          (mkReply "imported" ["bundle.tar.gz"] (mkCounts 1 0 0) [] [] [])
          "bundle.tar.gz").
Proof.
  apply (tar_gz_is_reported_as_model
           (mkReply "imported" ["bundle.tar.gz"] (mkCounts 1 0 0) [] [] [])
           "bundle.tar.gz"); reflexivity.
Defined.

Lemma file_name_is_not_empty_witness : "models.tar.gz" <> "".
Proof.
  apply (@file_name_is_not_empty sampleHost "/tmp/models" fileBytes "models.tar.gz").
  reflexivity.
Defined.

Lemma no_model_names_witness :
  displayEntities
    (mkReply "imported" [] (mkCounts 1 0 0) [[("DisplayName", VStr "Pod")]] [] [])
  = ([LogInfo "SUMMARY: imported"], Done tt).
Proof.
  exact (no_model_names
           (mkReply "imported" [] (mkCounts 1 0 0)
                    [[("DisplayName", VStr "Pod")]] [] [])
           eq_refl).
Defined.

Lemma summary_comes_first_witness :
  exists rest,
    events (displayEntities twoModelsReply) = LogInfo "SUMMARY: imported" :: rest.
Proof.
  refine (proj1 (summary_comes_first twoModelsReply) _).
  right. left. discriminate.
Defined.

Lemma components_table_witness :
  displaySuccessfulComponents twoModelsReply "m"
  = ([Println "";
      PrintToTable ["Component"; "Category"; "Version"]
        [["Pod"; "Core"; "v1"]; ["Service"; "Core"; "v1"]]], Done tt).
Proof.
  exact (components_table twoModelsReply "m" eq_refl).
Defined.

Lemma components_malformed_witness :
  exists v,
    displaySuccessfulComponents bareComponentReply "another-model"
    = panic (TypeAssertion v TMap).
Proof.
  exact (components_malformed bareComponentReply "another-model" eq_refl).
Defined.

Lemma relationship_rows_distinct_witness : NoDup [["Config"; "MapStore"]].
Proof.
  refine (relationship_rows_distinct collidingReply "m" ["From"; "To"] _ _).
  cbn. right. right. left. reflexivity.
Defined.

Lemma relationships_all_or_nothing_witness :
  events (displaySuccessfulRelationships numericKindReply "m") = [].
Proof.
  exact (relationships_all_or_nothing numericKindReply "m"
           (TypeAssertion (VNum 7) TString) eq_refl).
Defined.

Lemma relationships_of_other_models_witness :
  displaySuccessfulRelationships twoModelsReply "m" = ret tt.
Proof.
  exact (relationships_of_other_models twoModelsReply "m" eq_refl eq_refl).
Defined.

Lemma relationship_header_witness :
  relationshipTable ("edge-binding", [["Role"; "RoleBinding"]])
  = ([Println "";
      LogInfo "  RELATIONSHIP: Kind of edge and sub type binding";
      PrintToTable ["From"; "To"] [["Role"; "RoleBinding"]]], Done tt)
  /\ relationshipTable ("edge-binding-mount", [["Role"; "RoleBinding"]])
     = relationshipTable ("edge-binding", [["Role"; "RoleBinding"]]).
Proof.
  exact (relationship_header "edge" "binding" "mount" ["Role"; "RoleBinding"] []
           eq_refl eq_refl).
Defined.

Lemma long_description_witness :
  buildLongDescription (VArr [VStr "bad"; VNum 1; VStr "file"])
  = ([descriptionLog (VNum 1)], Done "bad file").
Proof.
  exact (proj1 (long_description (VArr [VStr "bad"; VNum 1; VStr "file"]))
           [VStr "bad"; VNum 1; VStr "file"] eq_refl).
Defined.

Lemma nameless_line_is_empty_witness :
  entityTypeLineOf {| compCount := 0; relCount := 0 |} = "".
Proof.
  exact (nameless_line_is_empty
           [VStr "m1"; VStr "m1"; VStr "m1"]
           [VStr "component"; VStr "relationship"; VStr "Unknown"]
           "bad file" "" eq_refl).
Defined.

Lemma counters_bounded_witness : 1 + 1 <= 0 + 0 + 3.
Proof.
  exact (counters_bounded
           [VStr "m1"; VStr "m1"; VStr "m1"]
           [VStr "component"; VStr "relationship"; VStr "Unknown"]
           "bad file" "m1" 0
           {| compCount := 0; relCount := 0 |}
           {| compCount := 1; relCount := 1 |} eq_refl).
Defined.

Lemma rejected_record_trace_witness :
  unsuccessfulEntity "m1" threeEntities
  = ([LogInfo (newline ++ "ERROR: Import process for file m1 encountered error: "
               ++ newline ++ "    bad file");
      Println "";
      LogInfo ("  ERROR: Import did not occur for 1 entity of type component"
               ++ " and 1 entity of type relationship error: "
               ++ newline ++ "  bad file")],
     Done tt).
Proof.
  rewrite (rejected_record_trace "m1" threeEntities
             [("name", VArr [VStr "m1"; VStr "m1"; VStr "m1"]);
              ("entityType",
               VArr [VStr "component"; VStr "relationship"; VStr "Unknown"]);
              ("error", VMap [("LongDescription", VArr [VStr "bad"; VStr "file"])])]
             [("LongDescription", VArr [VStr "bad"; VStr "file"])]
             [VStr "m1"; VStr "m1"; VStr "m1"]
             [VStr "component"; VStr "relationship"; VStr "Unknown"]
             [VStr "bad"; VStr "file"]
             eq_refl eq_refl eq_refl eq_refl eq_refl eq_refl eq_refl).
  reflexivity.
Defined.

Lemma rejected_entities_complete_witness :
  result (displayUnsuccessfulEntities
            (mkReply "rejected" ["m1"] (mkCounts 0 0 3) [] []
               [noErrorField; threeEntities; VNum 3])
            "m1")
  = Done tt.
Proof.
  exact (rejected_entities_complete
           (mkReply "rejected" ["m1"] (mkCounts 0 0 3) [] []
                    [noErrorField; threeEntities; VNum 3])
           "m1" eq_refl).
Defined.

Example skipped_directories :
  compressDirectory (H := sampleHost) "/tmp/models" = inl fileBytes.
Proof. reflexivity. Qed.

(** ** The report completes on well-formed replies *)

Section Completion.

Context {E : Externals}.

Lemma foldM_done {A St} (l : list A) (s : St) (body : St -> A -> M St) :
  (forall s0 x, In x l -> exists s1, result (body s0 x) = Done s1) ->
  exists s', result (foldM l s body) = Done s'.
Proof.
  revert s. induction l as [|x l IH]; intros s Hbody; [now exists s|].
  cbn [foldM]. destruct (Hbody s x (or_introl eq_refl)) as [s1 Hs1].
  destruct (IH s1) as [s' Hs']; [intros s0 y Hy; apply Hbody; now right|].
  exists s'. now rewrite result_bind_done with (a := s1).
Qed.

Lemma selectorRow_done (kind subtype : string) (st : relstate) (selector : value) :
  selectorWellFormed selector = true ->
  exists st', result (selectorRow kind subtype st selector) = Done st'.
Proof.
  unfold selectorWellFormed, selectorRow, assert_map, assert_slice, index.
  intros Hwf.
  destruct (as_map selector) as [selectorMap|]; [|discriminate].
  rewrite bind_ret_l.
  destruct (as_map (lookup selectorMap "allow")) as [allow|]; [|discriminate].
  rewrite bind_ret_l.
  destruct (as_slice (lookup allow "from")) as [[|from0 from]|]; try discriminate.
  destruct (as_slice (lookup allow "to")) as [[|to0 to]|]; try discriminate.
  rewrite !bind_ret_l. cbn [nth_error]. rewrite bind_ret_l.
  apply andb_true_iff in Hwf. destruct Hwf as [Hfrom Hto].
  destruct from0; try discriminate. destruct to0; try discriminate.
  cbn [as_map]. rewrite !bind_ret_l. cbn [as_map]. rewrite ?bind_ret_l.
  match goal with
  | |- context [if ?seenBefore then _ else _] => destruct seenBefore
  end; eexists; reflexivity.
Qed.

Lemma relationshipRows_done (model : string) (st : relstate) (rel : gomap) :
  relationshipWellFormed rel = true ->
  exists st', result (relationshipRows model st rel) = Done st'.
Proof.
  unfold relationshipWellFormed, relationshipHeaderTyped, relationshipRows.
  intros Hwf.
  apply andb_true_iff in Hwf. destruct Hwf as [Htyped Hsel].
  apply andb_true_iff in Htyped. destruct Htyped as [Htyped Hname].
  apply andb_true_iff in Htyped. destruct Htyped as [Htyped Hmodel].
  apply andb_true_iff in Htyped. destruct Htyped as [Hkind Hsubtype].
  unfold assert_string, assert_map.
  destruct (lookup rel "Kind"); try discriminate.
  destruct (lookup rel "Subtype"); try discriminate.
  destruct (lookup rel "Model") as [| | | | |modelMap]; try discriminate.
  cbn [map_or_zero as_map] in Hname.
  cbn [as_string as_map]. rewrite !bind_ret_l.
  destruct (lookup modelMap "name"); try discriminate.
  cbn [as_string]. rewrite bind_ret_l.
  destruct (negb (String.eqb _ model)); [eexists; reflexivity|].
  unfold assert_slice.
  destruct (as_slice (lookup rel "Selectors")) as [selectors|]; [|discriminate].
  rewrite bind_ret_l. apply foldM_done.
  intros st0 selector Hin. apply selectorRow_done.
  rewrite forallb_forall in Hsel. now apply Hsel.
Qed.

Lemma relationships_done (r : models_RegistryAPIResponse) (model : string) :
  forallb relationshipWellFormed
          (SuccessfulRelationships (EntityTypeSummary r)) = true ->
  result (displaySuccessfulRelationships r model) = Done tt.
Proof.
  intros Hwf. unfold displaySuccessfulRelationships. cbv zeta.
  destruct (Nat.ltb 0 _); [|reflexivity].
  destruct (foldM_done (SuccessfulRelationships (EntityTypeSummary r))
              {| seen := []; relationshipMap := [] |} (relationshipRows model))
    as [st Hst].
  { intros s0 rel Hin. apply relationshipRows_done.
    rewrite forallb_forall in Hwf. now apply Hwf. }
  rewrite result_bind_done with (a := st) by exact Hst.
  apply tables_complete. intros key rows Hin.
  apply (Permutation_in _ (rangeOrder_perm _)) in Hin.
  revert key rows Hin.
  apply (foldM_invariant keyed _ _ _ _
           (fun s0 x s1 => relationshipRows_keyed model s0 s1 x) Hst).
  intros key rows [].
Qed.

Lemma components_done (r : models_RegistryAPIResponse) (modelName : string) :
  forallb componentWellFormed (SuccessfulComponents (EntityTypeSummary r)) = true ->
  result (displaySuccessfulComponents r modelName) = Done tt.
Proof.
  intros Hwf. unfold displaySuccessfulComponents. cbv zeta.
  destruct (Nat.ltb 0 _); [|reflexivity].
  rewrite (components_fold _ _ _ Hwf), bind_ret_l.
  destruct (Nat.ltb 0 _); reflexivity.
Qed.

Lemma rejected_done (r : models_RegistryAPIResponse) (modelName : string) :
  forallb recordTyped (UnsuccessfulEntityNameWithError (EntityTypeSummary r)) = true ->
  result (displayUnsuccessfulEntities r modelName) = Done tt.
Proof.
  intros Htyped. unfold displayUnsuccessfulEntities. cbv zeta.
  destruct (Nat.ltb 0 _); [|reflexivity].
  apply forM__done. intros entity Hin.
  rewrite forallb_forall in Htyped. specialize (Htyped entity Hin).
  unfold recordTyped in Htyped. unfold unsuccessfulEntity, Cast_map, Cast_slice.
  destruct (as_map entity) as [entityMap|]; [|reflexivity].
  destruct (as_slice (lookup entityMap "name")) as [names|]; [|reflexivity].
  destruct (as_slice (lookup entityMap "entityType")) as [entityTypes|]; [|reflexivity].
  destruct (as_map (lookup entityMap "error")) as [errorDetails|]; [|reflexivity].
  apply andb_true_iff in Htyped. destruct Htyped as [Hsn Hst].
  destruct (long_description_done (lookup errorDetails "LongDescription"))
    as [ld Hld].
  rewrite result_bind_done with (a := ld) by exact Hld.
  unfold buildEntityTypeLine.
  pose proof (walk_counts entityTypes ld modelName names 0
                {| compCount := 0; relCount := 0 |} Hst Hsn) as Hres.
  rewrite bind_assoc.
  rewrite result_bind_done with (1 := Hres). rewrite bind_ret_l.
  destruct (negb _); reflexivity.
Qed.

(** X25: when every relationship record has a string kind and subtype, a
    model object with a string name, and selectors whose "allow" object
    lists at least one "from" and one "to" object, the relationship pass
    completes under every model name. *)
Theorem relationships_complete (r : models_RegistryAPIResponse) (model : string) :
  forallb relationshipWellFormed
          (SuccessfulRelationships (EntityTypeSummary r)) = true ->
  result (displaySuccessfulRelationships r model) = Done tt.
Proof. apply relationships_done. Qed.

(** X26: on a reply whose component, relationship and rejected-entity
    records are all well formed the whole report completes: no model
    name, known to the records or not, makes it panic. *)
Theorem report_completes (r : models_RegistryAPIResponse) :
  replyWellFormed r = true ->
  result (displayEntities r) = Done tt.
Proof.
  unfold replyWellFormed. intros Hwf.
  apply andb_true_iff in Hwf. destruct Hwf as [Hwf Hrej].
  apply andb_true_iff in Hwf. destruct Hwf as [Hcomp Hrel].
  assert (Hblock : forall model flag,
             result (displayModelInfo r model flag) = Done tt).
  { intros model flag. unfold displayModelInfo.
    rewrite result_bind_done with (a := tt) by (destruct flag; reflexivity).
    rewrite result_bind_done with (a := tt) by now apply components_done.
    rewrite result_bind_done with (a := tt) by now apply relationships_done.
    now apply rejected_done. }
  unfold displayEntities. cbv zeta.
  destruct (negb (displayEmtpyModel r)); [reflexivity|].
  rewrite result_bind_done with (a := tt) by reflexivity.
  unfold displayEntitisIfModel. cbv zeta.
  rewrite result_bind_done with (a := tt)
    by (apply forM__done; intros model _; apply Hblock).
  apply forM__done. intros model _. apply Hblock.
Qed.

End Completion.

Lemma relationships_complete_witness :
  result (displaySuccessfulRelationships collidingReply "m") = Done tt.
Proof.
  exact (relationships_complete collidingReply "m" eq_refl).
Defined.

Lemma report_completes_witness :
  result (displayEntities
            (mkReply "imported" ["m"; "n"; "bundle.zip"] (mkCounts 3 1 1)
               [mkComponent "Pod" "m" "Core" "v1"]
               [mkRelationship "edge" "binding" "m" "Role" "RoleBinding" []]
               [threeEntities; noErrorField]))
  = Done tt.
Proof.
  exact (report_completes
           (mkReply "imported" ["m"; "n"; "bundle.zip"] (mkCounts 3 1 1)
              [mkComponent "Pod" "m" "Core" "v1"]
              [mkRelationship "edge" "binding" "m" "Role" "RoleBinding" []]
              [threeEntities; noErrorField])
           eq_refl).
Defined.

(** ** The report: a rejected record without its error object *)

Section Diagnostics.

Context {E : Externals}.

Lemma diagnostics_app (l1 l2 : list event) :
  diagnostics (l1 ++ l2) = diagnostics l1 + diagnostics l2.
Proof. unfold diagnostics. now rewrite filter_app, length_app. Qed.

Lemma diagnostics_bind_zero {A B} (m : M A) (f : A -> M B) :
  diagnostics (events m) = 0 ->
  (forall a, diagnostics (events (f a)) = 0) ->
  diagnostics (events (bind m f)) = 0.
Proof.
  intros Hm Hf. destruct m as [o [a | p]]; [|exact Hm].
  rewrite bind_done. cbn [events fst] in *.
  now rewrite diagnostics_app, Hm, Hf.
Qed.

Lemma diagnostics_bind_done {A B} (m : M A) (f : A -> M B) (a : A) :
  result m = Done a ->
  diagnostics (events (bind m f))
  = diagnostics (events m) + diagnostics (events (f a)).
Proof.
  intros Hm. now rewrite (events_bind_done _ _ _ Hm), diagnostics_app.
Qed.

Lemma silent_componentRow (modelName : string) (rows : list (list string))
    (comp : gomap) :
  silent (componentRow modelName rows comp).
Proof.
  unfold componentRow. cbv zeta.
  apply silent_bind; [apply silent_assert_map | intros categoryMap].
  apply silent_bind; [apply silent_assert_map | intros modelMap].
  destruct (String.eqb _ modelName); reflexivity.
Qed.

Lemma diagnostics_components (r : models_RegistryAPIResponse) (modelName : string) :
  diagnostics (events (displaySuccessfulComponents r modelName)) = 0.
Proof.
  unfold displaySuccessfulComponents. cbv zeta.
  destruct (Nat.ltb 0 (List.length (SuccessfulComponents _))); [|reflexivity].
  apply diagnostics_bind_zero.
  - now rewrite (silent_foldM _ _ _ (silent_componentRow modelName)).
  - intros rows. destruct (Nat.ltb 0 (List.length rows)); reflexivity.
Qed.

Lemma diagnostics_table (entry : string * list (list string)) :
  diagnostics (events (relationshipTable entry)) = 0.
Proof.
  destruct entry as [key rows]. unfold relationshipTable, index.
  destruct (Nat.ltb 0 (List.length rows)); [|reflexivity].
  destruct (Split "-"%char key) as [|p0 [|p1 rest]]; reflexivity.
Qed.

Lemma diagnostics_relationships (r : models_RegistryAPIResponse) (model : string) :
  diagnostics (events (displaySuccessfulRelationships r model)) = 0.
Proof.
  unfold displaySuccessfulRelationships. cbv zeta.
  destruct (Nat.ltb 0 (List.length (SuccessfulRelationships _))); [|reflexivity].
  apply diagnostics_bind_zero.
  - now rewrite (silent_foldM _ _ _ (silent_relationshipRows model)).
  - intros st. induction (rangeOrder (relationshipMap st)) as [|entry m IH];
      [reflexivity|].
    cbn [forM_]. apply diagnostics_bind_zero; [apply diagnostics_table|].
    intros _. exact IH.
Qed.

Lemma diagnostics_recordTrace (modelName : string) (entity : value) :
  diagnostics (recordTrace modelName entity) = 0.
Proof.
  unfold recordTrace. cbv zeta. rewrite !diagnostics_app.
  assert (Hdesc : forall l, diagnostics (map descriptionLog l) = 0)
    by (intros l; induction l; [reflexivity | exact IHl]).
  assert (Hunknown : forall ld l, diagnostics (map (unknownLine ld) l) = 0)
    by (intros ld l; induction l; [reflexivity | exact IHl]).
  rewrite Hdesc, Hunknown.
  destruct (Nat.eqb _ 0 && Nat.eqb _ 0); reflexivity.
Qed.

Lemma diagnostics_expected (modelName : string) (entities : list value) :
  diagnostics (flat_map (expectedTrace modelName) entities)
  = List.length (filter skipped entities).
Proof.
  induction entities as [|entity entities IH]; [reflexivity|].
  cbn [flat_map filter]. rewrite diagnostics_app, IH.
  unfold expectedTrace. unfold skipped at 2.
  destruct (castFailure entity); [reflexivity|].
  now rewrite diagnostics_recordTrace.
Qed.

Lemma skipped_record (modelName : string) (entity : value) (err : goerror) :
  castFailure entity = Some err ->
  unsuccessfulEntity modelName entity = emit (LogError err).
Proof.
  unfold castFailure, unsuccessfulEntity, Cast_map, Cast_slice.
  destruct (as_map entity) as [entityMap|]; [|now intros [= <-]].
  destruct (as_slice (lookup entityMap "name")); [|now intros [= <-]].
  destruct (as_slice (lookup entityMap "entityType")); [|now intros [= <-]].
  destruct (as_map (lookup entityMap "error")); [discriminate | now intros [= <-]].
Qed.

Lemma wellFormed_record (modelName : string) (entity : value) :
  wellFormedRecord entity = true ->
  castFailure entity = None
  /\ unsuccessfulEntity modelName entity = (recordTrace modelName entity, Done tt).
Proof.
  unfold wellFormedRecord, recordTrace, castFailure, unsuccessfulEntity,
    Cast_map, Cast_slice, map_or_zero, slice_or_zero.
  destruct (as_map entity) as [entityMap|]; [|discriminate].
  destruct (as_slice (lookup entityMap "name")) as [names|]; [|discriminate].
  destruct (as_slice (lookup entityMap "entityType")) as [entityTypes|];
    [|discriminate].
  destruct (as_map (lookup entityMap "error")) as [errorDetails|]; [|discriminate].
  intros Hwf. split; [reflexivity|].
  apply andb_true_iff in Hwf. destruct Hwf as [Hwf Hitems].
  apply andb_true_iff in Hwf. destruct Hwf as [Hsn Hst].
  destruct (lookup errorDetails "LongDescription") as [| | | |items|];
    try discriminate.
  cbv zeta. cbn [as_slice].
  unfold buildLongDescription. cbn [as_slice]. rewrite description_fold.
  rewrite bind_assoc, bind_done. cbn beta. cbn [append]. rewrite bind_ret_l.
  set (ld := TrimSpace (spaced (stringsOf items))).
  unfold buildEntityTypeLine.
  pose proof (walk_counts entityTypes ld modelName names 0
                {| compCount := 0; relCount := 0 |} Hst Hsn) as Hres.
  pose proof (walk_trace entityTypes ld modelName names 0
                {| compCount := 0; relCount := 0 |} Hst Hsn) as Hev.
  destruct (foldM_range 0 names _ _) as [o res]. cbn [events result fst snd] in Hres, Hev.
  subst o res. cbn [compCount relCount Nat.add].
  rewrite bind_assoc, bind_done. cbn beta. rewrite bind_ret_l.
  rewrite entityTypeLineOf_phrase. cbn [compCount relCount].
  rewrite summaryPhrase_empty.
  unfold unknownEntries, combinedLine.
  destruct (Nat.eqb _ 0 && Nat.eqb _ 0); reflexivity.
Qed.

Lemma record_is_expected (modelName : string) (entity : value) :
  skipped entity || wellFormedRecord entity = true ->
  unsuccessfulEntity modelName entity = (expectedTrace modelName entity, Done tt).
Proof.
  unfold skipped, expectedTrace. intros Hrecord.
  destruct (castFailure entity) as [err|] eqn:Hcast.
  - exact (skipped_record modelName entity err Hcast).
  - cbn [orb] in Hrecord.
    destruct (wellFormed_record modelName entity Hrecord) as [_ Htrace].
    exact Htrace.
Qed.

Lemma forM__trace {A} (l : list A) (f : A -> M unit) (g : A -> list event) :
  (forall x, In x l -> f x = (g x, Done tt)) ->
  forM_ l f = (flat_map g l, Done tt).
Proof.
  induction l as [|x l IH]; intros Hall; [reflexivity|].
  cbn [forM_ flat_map]. rewrite (Hall x (or_introl eq_refl)), bind_done.
  rewrite IH by (intros y Hy; apply Hall; now right). reflexivity.
Qed.

Lemma pass_is_expected (r : models_RegistryAPIResponse) (modelName : string) :
  forallb (fun entity => skipped entity || wellFormedRecord entity)
          (UnsuccessfulEntityNameWithError (EntityTypeSummary r)) = true ->
  displayUnsuccessfulEntities r modelName
  = (flat_map (expectedTrace modelName)
              (UnsuccessfulEntityNameWithError (EntityTypeSummary r)),
     Done tt).
Proof.
  intros Hall. unfold displayUnsuccessfulEntities. cbv zeta.
  destruct (UnsuccessfulEntityNameWithError (EntityTypeSummary r))
    as [|entity entities] eqn:Hentities; [reflexivity|].
  cbn [List.length Nat.ltb Nat.leb]. apply forM__trace.
  intros x Hx. apply record_is_expected.
  rewrite forallb_forall in Hall. now apply Hall.
Qed.

Lemma forM__diagnostics {A} (l : list A) (f : A -> M unit) (k : nat) :
  (forall x, result (f x) = Done tt /\ diagnostics (events (f x)) = k) ->
  result (forM_ l f) = Done tt
  /\ diagnostics (events (forM_ l f)) = List.length l * k.
Proof.
  intros Hf. induction l as [|x l [IHres IHdiag]]; [now split|].
  destruct (Hf x) as [Hres Hdiag]. cbn [forM_ List.length]. split.
  - now rewrite result_bind_done with (a := tt).
  - rewrite diagnostics_bind_done with (a := tt) by exact Hres.
    rewrite Hdiag, IHdiag. reflexivity.
Qed.

Lemma named_split (names : list string) :
  List.length (filter (fun m => named m && negb (hasExtension m)) names)
  + List.length (filter (fun m => named m && hasExtension m) names)
  = List.length (filter named names).
Proof.
  induction names as [|m names IH]; [reflexivity|].
  cbn [filter]. destruct (named m); cbn [andb]; [|exact IH].
  destruct (hasExtension m); cbn [negb List.length]; lia.
Qed.

(** C6, as the code has it.  A record whose "error" field is missing or
    is not an object is one of the records a pass skips with exactly one
    logged error.  When every rejected record is either skipped so or well
    formed, one pass, made under one model name, prints for each record in
    turn either that one error or the full rendering of the record, and
    completes.  The report makes one such pass for each model name that is
    not empty: when the component and relationship records are well formed
    too, it logs as many errors as there are such names times skipped
    records, and none when the short circuit fires. *)
Theorem bad_error_field_per_block (r : models_RegistryAPIResponse)
    (modelName : string) :
  forallb (fun entity => skipped entity || wellFormedRecord entity)
          (UnsuccessfulEntityNameWithError (EntityTypeSummary r)) = true ->
  (forall entity,
      as_map (errorField entity) = None ->
      exists err,
        castFailure entity = Some err
        /\ unsuccessfulEntity modelName entity = emit (LogError err))
  /\ displayUnsuccessfulEntities r modelName
     = (flat_map (expectedTrace modelName)
                 (UnsuccessfulEntityNameWithError (EntityTypeSummary r)),
        Done tt)
  /\ (forallb componentWellFormed
              (SuccessfulComponents (EntityTypeSummary r)) = true ->
      forallb relationshipWellFormed
              (SuccessfulRelationships (EntityTypeSummary r)) = true ->
      diagnostics (events (displayEntities r))
      = if displayEmtpyModel r
        then List.length (filter named (ModelName r))
             * List.length (filter skipped
                              (UnsuccessfulEntityNameWithError
                                 (EntityTypeSummary r)))
        else 0).
Proof.
  intros Hall. split; [|split].
  - intros entity Herror.
    assert (Hcast : exists err, castFailure entity = Some err).
    { unfold castFailure. unfold errorField, map_or_zero in Herror.
      destruct (as_map entity) as [entityMap|]; [|eauto].
      destruct (as_slice (lookup entityMap "name")); [|eauto].
      destruct (as_slice (lookup entityMap "entityType")); [|eauto].
      rewrite Herror. eauto. }
    destruct Hcast as [err Hcast]. exists err.
    split; [exact Hcast | now apply skipped_record].
  - now apply pass_is_expected.
  - intros Hcomp Hrel.
    assert (Hblock : forall model flag,
               result (displayModelInfo r model flag) = Done tt
               /\ diagnostics (events (displayModelInfo r model flag))
                  = List.length (filter skipped
                                   (UnsuccessfulEntityNameWithError
                                      (EntityTypeSummary r)))).
    { intros model flag. unfold displayModelInfo.
      assert (Hhead : result (if negb flag then emit (modelHeader model)
                              else ret (Ev := event) tt) = Done tt)
        by (destruct flag; reflexivity).
      pose proof (components_done r model Hcomp) as Hc.
      pose proof (relationships_done r model Hrel) as Hr.
      pose proof (pass_is_expected r model Hall) as Hpass.
      split.
      - rewrite result_bind_done with (a := tt) by exact Hhead.
        rewrite result_bind_done with (a := tt) by exact Hc.
        rewrite result_bind_done with (a := tt) by exact Hr.
        now rewrite Hpass.
      - rewrite diagnostics_bind_done with (a := tt) by exact Hhead.
        rewrite diagnostics_bind_done with (a := tt) by exact Hc.
        rewrite diagnostics_bind_done with (a := tt) by exact Hr.
        rewrite diagnostics_components, diagnostics_relationships, Hpass.
        cbn [events fst]. rewrite diagnostics_expected.
        destruct flag; reflexivity. }
    unfold displayEntities. cbv zeta.
    destruct (displayEmtpyModel r); cbn [negb]; [|reflexivity].
    rewrite diagnostics_bind_done with (a := tt) by reflexivity.
    unfold displayEntitisIfModel. cbv zeta. rewrite classify_filter.
    cbn [modelsWithoutExtension modelsWithExtension].
    destruct (forM__diagnostics
                (filter (fun m => named m && negb (hasExtension m)) (ModelName r))
                (fun model => displayModelInfo r model false) _
                (fun model => Hblock model false)) as [Hres1 Hdiag1].
    destruct (forM__diagnostics
                (filter (fun m => named m && hasExtension m) (ModelName r))
                (fun model => displayModelInfo r model true) _
                (fun model => Hblock model true)) as [_ Hdiag2].
    rewrite diagnostics_bind_done with (a := tt) by exact Hres1.
    rewrite Hdiag1, Hdiag2, <- named_split. cbn. lia.
Qed.

End Diagnostics.

(** C6, as the specification words it, fails: the record [noErrorField]
    has no "error" field, and the report logs two errors for it under two
    model names, and none under no model name, where the other record is
    not rendered either. *)
Lemma one_diagnostic_per_model_name :
  as_map (errorField noErrorField) = None
  /\ wellFormedRecord threeEntities = true
  /\ diagnostics (events (displayEntities twoBlocksReply)) = 2
  /\ diagnostics (events (displayEntities twoBlocksReply)) <> 1
  /\ diagnostics (events (displayEntities noBlockReply)) <> 1
  /\ events (displayEntities noBlockReply) = [LogInfo "SUMMARY: rejected"].
Proof. repeat split; discriminate. Qed.

Lemma bad_error_field_per_block_witness :
  displayUnsuccessfulEntities twoBlocksReply "m1"
  = ([LogError (ErrTypeCast VNil TMap);
      LogInfo (newline ++ "ERROR: Import process for file m1 encountered error: "
               ++ newline ++ "    bad file");
      Println "";
      LogInfo ("  ERROR: Import did not occur for 1 entity of type component"
               ++ " and 1 entity of type relationship error: "
               ++ newline ++ "  bad file")],
     Done tt)
  /\ diagnostics (events (displayEntities twoBlocksReply)) = 2 * 1.
Proof.
  destruct (bad_error_field_per_block twoBlocksReply "m1" eq_refl)
    as (_ & Hpass & Hreport).
  split; [exact Hpass | exact (Hreport eq_refl eq_refl)].
Defined.
